(** * cycling-diner: address resolution, GeoJSON export and static-map batching

    A shallow embedding of [export_geojson.py] and [generate_map.py].

    Conventions of the embedding:
    - a Python [str] is a [string]; each character stands for the code point of
      the same number, so the strings covered are those over U+0000..U+00FF
      (on which [strip] and [lower] below are exactly Python's);
    - a finite Python [float] is a [Qc], compared by value;
    - a Python object (a CSV cell, a decoded JSON document, the dictionary given
      to [json.dump]) is a [value]; a dictionary that is built or decoded is the
      list of its items in order, a CSV row is a finite map from column names;
    - an exception is a [Raise] in the [res] monad; code that prints, sleeps or
      talks to the network runs in [prog], which threads the list of events
      issued so far and stops at the first uncaught exception;
    - the network, [float()] on integers and strings, [format(x, ".6f")],
      [urllib.parse.quote_plus] and the creation of the output directory and
      file are parameters, gathered in the environment of a run; a CSV file
      is the list of rows its reader yields. *)

From Stdlib Require Import ZArith QArith Qcanon Qround Ascii String List Lia.
From stdpp Require Import base decidable option list strings numbers gmap pretty
  sorting.

Set Warnings "-register-all,-clear-no-such-hyp".
Local Open Scope string_scope.
Local Open Scope list_scope.
Local Open Scope nat_scope.

(** ** Python primitives *)

Module Py.

(** [str.isspace] on one character. *)
Definition isspace (c : ascii) : bool :=
  let n := nat_of_ascii c in
  (((9 <=? n) && (n <=? 13)) || ((28 <=? n) && (n <=? 32))
   || (n =? 133) || (n =? 160))%nat.

Fixpoint lstrip (s : string) : string :=
  match s with
  | String c s' => if isspace c then lstrip s' else s
  | EmptyString => EmptyString
  end.

Fixpoint rstrip (s : string) : string :=
  match s with
  | String c s' =>
      match rstrip s' with
      | EmptyString => if isspace c then EmptyString else String c EmptyString
      | r => String c r
      end
  | EmptyString => EmptyString
  end.

(** [s.strip()] *)
Definition strip (s : string) : string := rstrip (lstrip s).

Definition lower_char (c : ascii) : ascii :=
  let n := nat_of_ascii c in
  if (((65 <=? n) && (n <=? 90))
      || ((192 <=? n) && (n <=? 222) && negb (n =? 215)))%nat
  then ascii_of_nat (n + 32) else c.

(** [s.lower()] *)
Fixpoint lower (s : string) : string :=
  match s with
  | String c s' => String (lower_char c) (lower s')
  | EmptyString => EmptyString
  end.

(** [sep.join(parts)] *)
Fixpoint join (sep : string) (parts : list string) : string :=
  match parts with
  | [] => ""
  | [p] => p
  | p :: ps => p +:+ sep +:+ join sep ps
  end.

(** Truth value of a string: [bool(s)]. *)
Definition nonempty (s : string) : bool :=
  match s with EmptyString => false | _ => true end.

Inductive value :=
| VNone
| VBool (b : bool)
| VInt (z : Z)
| VFloat (q : Qc)
| VStr (s : string)
| VList (l : list value)
| VDict (d : list (string * value)).

(** [bool(v)] *)
Definition truthy (v : value) : bool :=
  match v with
  | VNone => false
  | VBool b => b
  | VInt z => negb (z =? 0)%Z
  | VFloat q => negb (bool_decide (q = 0%Qc))
  | VStr s => nonempty s
  | VList l => match l with [] => false | _ => true end
  | VDict d => match d with [] => false | _ => true end
  end.

Inductive exn :=
| AttributeError
| TypeError
| ValueError
| IndexError
| KeyError
| OverflowError
| URLError (reason : string)
| JSONDecodeError (msg : string)
| SystemExit (code : nat)
| FileNotFoundError (filename : string)
| OSError (reason : string).

Inductive res (A : Type) :=
| Ok (a : A)
| Raise (e : exn).
Arguments Ok {A} a.
Arguments Raise {A} e.

Definition rbind {A B} (r : res A) (k : A → res B) : res B :=
  match r with Ok a => k a | Raise e => Raise e end.

(** Lookup in the items of a dictionary. *)
Fixpoint items_get (k : string) (d : list (string * value)) : option value :=
  match d with
  | [] => None
  | (k', v) :: d' => if String.eqb k k' then Some v else items_get k d'
  end.

(** [v.get(k)]: only a dictionary has the method. *)
Definition get (v : value) (k : string) : res value :=
  match v with
  | VDict d => Ok (default VNone (items_get k d))
  | _ => Raise AttributeError
  end.

(** [v[i]] for an integer literal [i >= 0]. *)
Definition subscript (v : value) (i : nat) : res value :=
  match v with
  | VList l => match l !! i with Some x => Ok x | None => Raise IndexError end
  | VStr s =>
      match String.get i s with
      | Some c => Ok (VStr (String c EmptyString))
      | None => Raise IndexError
      end
  | VDict _ => Raise KeyError
  | VNone | VBool _ | VInt _ | VFloat _ => Raise TypeError
  end.

(** [a or b] *)
Definition or_else (a b : value) : value := if truthy a then a else b.

(** [v.strip()]: only a string has the method. *)
Definition strip_method (v : value) : res string :=
  match v with
  | VStr s => Ok (strip s)
  | _ => Raise AttributeError
  end.

(** What the outside world answers to one geocoding request: [urlopen] or
    [json.load] raises [e], or [json.load] returns [data]. *)
Inductive response :=
| Fails (e : exn)
| Body (data : value).

(** The environment of a run.  [net i address] is the answer to the request
    for [address] issued while the loop handles its item number [i] (an item
    issues at most one request, so answers may change from call to call);
    [store url out] is what fetching [url] and writing the body to [out]
    raises, if anything; [mkdirs name] is what creating the directory [name]
    (not the empty name) with its parents raises when it is not there yet,
    and [open_w path] what opening [path] for writing raises. *)
Record env := {
  net : nat → string → response;
  float_of_int : Z → res Qc;
  float_of_str : string → res Qc;
  fmt6 : Qc → string;
  quote_plus : string → string;
  store : string → string → res unit;
  mkdirs : string → res unit;
  open_w : string → res unit
}.

(** [p[:p.rfind("/") + 1]] *)
Fixpoint upto_last_slash (p : string) : string :=
  match p with
  | String c p' =>
      match upto_last_slash p' with
      | EmptyString => if Ascii.eqb c "/" then String c EmptyString
                       else EmptyString
      | head => String c head
      end
  | EmptyString => EmptyString
  end.

Fixpoint all_slashes (s : string) : bool :=
  match s with
  | String c s' => Ascii.eqb c "/" && all_slashes s'
  | EmptyString => true
  end.

(** [s.rstrip("/")] *)
Fixpoint rstrip_slashes (s : string) : string :=
  match s with
  | String c s' =>
      match rstrip_slashes s' with
      | EmptyString => if Ascii.eqb c "/" then EmptyString
                       else String c EmptyString
      | r => String c r
      end
  | EmptyString => EmptyString
  end.

(** [os.path.dirname(p)], on POSIX paths. *)
Definition dirname (p : string) : string :=
  let head := upto_last_slash p in
  if nonempty head && negb (all_slashes head) then rstrip_slashes head
  else head.

(** [os.makedirs(name, exist_ok=True)]: the empty name is no directory. *)
Definition makedirs (E : env) (name : string) : res unit :=
  match name with
  | EmptyString => Raise (FileNotFoundError name)
  | _ => mkdirs E name
  end.

(** [float(v)] *)
Definition float (E : env) (v : value) : res Qc :=
  match v with
  | VFloat q => Ok q
  | VInt z => float_of_int E z
  | VBool b => Ok (if b then 1%Qc else 0%Qc)
  | VStr s => float_of_str E s
  | VNone | VList _ | VDict _ => Raise TypeError
  end.

(** What the process does that can be observed from outside. *)
Inductive diag :=
| SetMapboxToken
| CsvNotFound (csv_path : string)
| GeocodingFailed (address : string) (e : exn)
| NoResult (address : string)
| GeocodingError (addr : string) (e : exn)
| WarningNoResult (addr : string).

Inductive info :=
| Wrote (n : nat) (out_path : string)
| NoAddressesFound
| Found (n : nat)
| Resolved (n : nat)
| NothingToMap
| Downloading (out : string)
| Saved (out : string)
| UrlTooLong
| Done.

Inductive event :=
| Geocode (address : string)
| Sleep
| Stderr (d : diag)
| Stdout (m : info)
| Download (url out : string)
| JsonDump (out_path : string) (doc : value).

(** [d[k] = v] on the items of a dictionary: an existing key keeps its place. *)
Fixpoint items_set (k : string) (v : value) (d : list (string * value))
  : list (string * value) :=
  match d with
  | [] => [(k, v)]
  | (k', v') :: d' =>
      if String.eqb k k' then (k, v) :: d' else (k', v') :: items_set k v d'
  end.

(** [row.get(k)] on a CSV row. *)
Definition row_get (row : gmap string value) (k : string) : value :=
  default VNone (row !! k).

(** [(row.get(k) or "").strip()] *)
Definition text (row : gmap string value) (k : string) : res string :=
  strip_method (or_else (row_get row k) (VStr "")).

(** A line of the CSV file under its header: every column holds a string, or
    nothing when the line is shorter than the header. *)
Definition cell (c : option string) : value :=
  match c with Some s => VStr s | None => VNone end.

(** The rows [csv.DictReader] yields. *)
Definition reader (csv : list (gmap string (option string)))
  : list (gmap string value) :=
  map (fmap cell) csv.

(** A computation with effects: it extends the trace (kept in issue order) and
    returns, or raises and leaves the trace as it was at that point. *)
Definition prog (A : Type) : Type := list event → list event * res A.

Definition ret {A} (a : A) : prog A := λ tr, (tr, Ok a).

Definition bind {A B} (m : prog A) (k : A → prog B) : prog B :=
  λ tr, match m tr with
        | (tr', Ok a) => k a tr'
        | (tr', Raise e) => (tr', Raise e)
        end.

Definition lift {A} (r : res A) : prog A := λ tr, (tr, r).

Definition emit (e : event) : prog unit := λ tr, (tr ++ [e], Ok tt).

(** [for x in xs: acc = body(acc, x)], the loop variables carried in [acc]. *)
Fixpoint for_each {A X} (body : A → X → prog A) (acc : A) (xs : list X)
  : prog A :=
  match xs with
  | [] => ret acc
  | x :: xs' => bind (body acc x) (λ acc', for_each body acc' xs')
  end.

(** [enumerate(xs, start)] *)
Definition enumerate {X} (start : nat) (xs : list X) : list (nat * X) :=
  imap (λ i x, (start + i, x)) xs.

(** The order-preserving deduplication loop both programs use:
      [seen = set(); unique = []]
      [for a in xs: if a not in seen: seen.add(a); unique.append(a)] *)
Section Dedup.
Context `{Countable A}.

Definition dedup_step (st : gset A * list A) (a : A) : gset A * list A :=
  let '(seen, unique) := st in
  if decide (a ∈ seen) then (seen, unique)
  else ({[a]} ∪ seen, unique ++ [a]).

Definition dedup (xs : list A) : list A :=
  snd (fold_left dedup_step xs (∅, [])).
End Dedup.

End Py.

Declare Scope prog_scope.
Delimit Scope prog_scope with prog.
Notation "x <- m ;; k" := (Py.bind m (λ x, k))
  (at level 100, m at next level, k at level 200, right associativity)
  : prog_scope.
Notation "x <-! r ;; k" := (Py.rbind r (λ x, k))
  (at level 100, r at next level, k at level 200, right associativity)
  : prog_scope.

(** ** export_geojson.py *)

Module ExportGeojson.
Import Py.
Local Open Scope prog_scope.

(** [read_rows]: the rows of the reader, each with its position under
    ["__row"]. *)
Definition with_row (i : nat) (row : gmap string value) : gmap string value :=
  <["__row" := VInt (Z.of_nat i)]> row.

Definition read_rows (csv : list (gmap string (option string)))
  : list (gmap string value) :=
  imap with_row (reader csv).

Definition build_full_address (row : gmap string value) : res string :=
  adres <-! text row "Adres";;
  postcode <-! text row "Postcode";;
  Ok (join ", " (List.filter nonempty [adres; postcode; "Utrecht, Nederland"])).

(** The column "Allergieën"; its ninth character is U+00EB. *)
Definition Allergieen : string :=
  "Allergie" +:+ String (ascii_of_nat 235) "n".

Definition keep : list (string * string) :=
  [ ("Naam persoon A", "naamA");
    ("Naam persoon B", "naamB");
    ("Adres", "adres");
    ("Postcode", "postcode");
    ("Stad", "stad");
    ("Team persoon A", "teamA");
    ("Team persoon B", "teamB");
    ("Dieetwensen", "dieet");
    (Allergieen, "allergie");
    ("Overige opmerkingen", "opmerking") ].

(** [{v: (row.get(k) or "").strip() for k, v in pairs}], filling [out]. *)
Fixpoint comprehension (row : gmap string value) (pairs : list (string * string))
    (out : list (string * value)) : res (list (string * value)) :=
  match pairs with
  | [] => Ok out
  | (k, v) :: pairs' =>
      s <-! text row k;;
      comprehension row pairs' (items_set v (VStr s) out)
  end.

Definition sanitize_props (row : gmap string value)
  : res (list (string * value)) :=
  out <-! comprehension row keep [];;
  Ok (items_set "row" (row_get row "__row") out).

(** Where the loop of [main] sends a row before any request is made. *)
Inductive route :=
| Excluded
| EmptyAddress
| Lookup (address : string).

Definition route_of (row : gmap string value) : res route :=
  stad <-! text row "Stad";;
  let stad := lower stad in
  if nonempty stad && negb (String.eqb stad "utrecht") then Ok Excluded else
  address <-! build_full_address row;;
  if negb (nonempty address) then Ok EmptyAddress else
  Ok (Lookup address).

Definition feature (lon lat : Qc) (props : list (string * value)) : value :=
  VDict [ ("type", VStr "Feature");
          ("geometry", VDict [ ("type", VStr "Point");
                               ("coordinates", VList [VFloat lon; VFloat lat]) ]);
          ("properties", VDict props) ].

Section WithEnv.
Variable E : env.

(** [geocode(address, token)], for the request of item [i]. *)
Definition geocode (i : nat) (address : string) : res (option (Qc * Qc)) :=
  match net E i address with
  | Fails e => Raise e
  | Body data =>
      features <-! get data "features";;
      let feats := or_else features (VList []) in
      if negb (truthy feats) then Ok None else
      f0 <-! subscript feats 0;;
      c <-! get f0 "center";;
      if truthy c then
        c0 <-! subscript c 0;;
        lon <-! float E c0;;
        c1 <-! subscript c 1;;
        lat <-! float E c1;;
        Ok (Some (lon, lat))
      else Ok None
  end.

(** One turn of the loop of [main], on the row at position [i]. *)
Definition body (features : list value) (item : nat * gmap string value)
  : prog (list value) :=
  let '(i, row) := item in
  r <- lift (route_of row);;
  match r with
  | Excluded => ret features
  | EmptyAddress => ret features
  | Lookup address =>
      _ <- emit (Geocode address);;
      coord <- match geocode i address with
               | Ok coord => ret coord
               | Raise e =>
                   _ <- emit (Stderr (GeocodingFailed address e));;
                   ret None
               end;;
      match coord with
      | None =>
          _ <- emit (Stderr (NoResult address));;
          ret features
      | Some (lon, lat) =>
          props <- lift (sanitize_props row);;
          _ <- emit Sleep;;
          ret (features ++ [feature lon lat props])
      end
  end.

(** [main] from the loop on; the loop runs over the rows of [read_rows],
    here with their positions, which select the answers of the service.
    After the loop the directory of [out_path] is created and the file
    opened, and either can raise; the writing itself is taken to succeed. *)
Definition export (csv : list (gmap string (option string)))
    (out_path : string) : prog unit :=
  features <- for_each body [] (enumerate 0 (read_rows csv));;
  let fc := VDict [ ("type", VStr "FeatureCollection");
                    ("features", VList features) ] in
  _ <- lift (makedirs E (dirname out_path));;
  _ <- lift (open_w E out_path);;
  _ <- emit (JsonDump out_path fc);;
  emit (Stdout (Wrote (length features) out_path)).

(** [main]; [token] is the environment variable, when it is set, and [file]
    the rows the reader yields from the CSV file, when the file exists (it
    is taken to be read without error). *)
Definition main (token : option string)
    (csv_path : string) (file : option (list (gmap string (option string))))
    (out_path : string) : prog unit :=
  if negb (nonempty (default "" token)) then
    _ <- emit (Stderr SetMapboxToken);;
    lift (Raise (SystemExit 1))
  else
    match file with
    | None =>
        _ <- emit (Stderr (CsvNotFound csv_path));;
        lift (Raise (SystemExit 1))
    | Some csv => export csv out_path
    end.
End WithEnv.

End ExportGeojson.

(** ** generate_map.py *)

Module GenerateMap.
Import Py.
Local Open Scope prog_scope.

Definition MARKER_COLOR : string := "ff2d20".
Definition UTRECHT_CENTER : Qc * Qc :=
  (Q2Qc (51214201 # 10000000), Q2Qc (520907374 # 10000000)).
Definition DEFAULT_ZOOM : nat := 12.
Definition DEFAULT_SIZE : nat * nat := (1280, 1280).

(** What the first loop of [read_addresses] does with a row. *)
Inductive verdict :=
| NoStreet
| OtherCity
| Address (full : string).

Definition row_address (row : gmap string value) : res verdict :=
  stad <-! text row "Stad";;
  adres <-! text row "Adres";;
  postcode <-! text row "Postcode";;
  if negb (nonempty adres) then Ok NoStreet else
  if nonempty stad && negb (String.eqb (lower stad) "utrecht") then Ok OtherCity
  else Ok (Address
             (join ", " (List.filter nonempty
                           [adres; postcode; "Utrecht, Nederland"]))).

Definition collect (addresses : list string) (row : gmap string value)
  : prog (list string) :=
  v <- lift (row_address row);;
  match v with
  | NoStreet => ret addresses
  | OtherCity => ret addresses
  | Address full => ret (addresses ++ [full])
  end.

Definition read_addresses (csv : list (gmap string (option string)))
  : prog (list string) :=
  addresses <- for_each collect [] (reader csv);;
  ret (dedup addresses).

(** [range(start, stop, step)] for [step > 0]; [fuel] bounds the length. *)
Fixpoint range_from (fuel i stop step : nat) : list nat :=
  match fuel with
  | 0 => []
  | S fuel' => if (i <? stop)%nat then i :: range_from fuel' (i + step) stop step
               else []
  end.

Definition range (start stop step : nat) : res (list nat) :=
  match step with
  | 0 => Raise ValueError
  | _ => Ok (range_from stop start stop step)
  end.

(** [xs[i:j]] for [0 <= i <= j] *)
Definition slice {A} (xs : list A) (i j : nat) : list A :=
  take (j - i) (drop i xs).

(** [chunk(iterable, n)], the chunks it yields collected in a list. *)
Definition chunk {A} (iterable : list A) (n : nat) : res (list (list A)) :=
  starts <-! range 0 (length iterable) n;;
  Ok (map (λ i, slice iterable i (i + n)) starts).

Section WithEnv.
Variable E : env.

(** [geocode_address(address, token)], for the request of item [i]. *)
Definition geocode_address (i : nat) (address : string) : res value :=
  match net E i address with
  | Fails e => Raise e
  | Body data =>
      features <-! get data "features";;
      let feats := or_else features (VList []) in
      if negb (truthy feats) then Ok VNone else
      f0 <-! subscript feats 0;;
      get f0 "center"
  end.

(** One turn of the first loop of [geocode_all]. *)
Definition lookup (coords : list (Qc * Qc)) (item : nat * string)
  : prog (list (Qc * Qc)) :=
  let '(idx, addr) := item in
  _ <- emit (Geocode addr);;
  c <- match geocode_address idx addr with
       | Ok c => ret c
       | Raise e =>
           _ <- emit (Stderr (GeocodingError addr e));;
           ret VNone
       end;;
  coords' <- (if truthy c then
                c0 <- lift (subscript c 0);;
                lon <- lift (float E c0);;
                c1 <- lift (subscript c 1);;
                lat <- lift (float E c1);;
                ret (coords ++ [(lon, lat)])
              else
                _ <- emit (Stderr (WarningNoResult addr));;
                ret coords);;
  _ <- emit Sleep;;
  ret coords'.

Definition geocode_all (addresses : list string) : prog (list (Qc * Qc)) :=
  coords <- for_each lookup [] (enumerate 1 addresses);;
  ret (dedup coords).

Definition marker (c : Qc * Qc) : string :=
  "pin-s+" +:+ MARKER_COLOR +:+ "(" +:+ fmt6 E c.1 +:+ "," +:+ fmt6 E c.2
  +:+ ")".

Definition build_marker_overlays (coords : list (Qc * Qc)) : string :=
  join "," (map marker coords).

(** [build_static_url(overlays, token)] with the default centre, zoom and
    size. *)
Definition build_static_url (overlays token : string) : string :=
  let '(lon, lat) := UTRECHT_CENTER in
  let '(width, height) := DEFAULT_SIZE in
  let base := "https://api.mapbox.com/styles/v1/mapbox/streets-v12/static/" in
  let path := overlays +:+ "/" +:+ fmt6 E lon +:+ "," +:+ fmt6 E lat +:+ ","
              +:+ pretty DEFAULT_ZOOM +:+ ",0,0/" +:+ pretty width +:+ "x"
              +:+ pretty height +:+ "@2x" in
  base +:+ path +:+ "?" +:+ "access_token=" +:+ quote_plus E token.

Definition download (url out : string) : prog unit :=
  _ <- emit (Download url out);;
  lift (store E url out).

(** One turn of the loop over the chunks. *)
Definition fetch_chunk (token : string) (_ : unit)
    (item : nat * list (Qc * Qc)) : prog unit :=
  let '(i, sub) := item in
  let overlays := build_marker_overlays sub in
  let url := build_static_url overlays token in
  let out := "utrecht_markers_" +:+ pretty i +:+ ".png" in
  _ <- emit (Stdout (Downloading out));;
  download url out.

(** [main] from the resolved coordinates on. *)
Definition render (token : string) (coords : list (Qc * Qc)) : prog unit :=
  match coords with
  | [] =>
      _ <- emit (Stdout NothingToMap);;
      lift (Raise (SystemExit 0))
  | _ =>
      let overlays_all := build_marker_overlays coords in
      let test_url := build_static_url overlays_all token in
      if (Z.of_nat (String.length test_url) <? 7800)%Z then
        let out := "utrecht_markers.png" in
        _ <- emit (Stdout (Downloading out));;
        _ <- download test_url out;;
        emit (Stdout (Saved out))
      else
        _ <- emit (Stdout UrlTooLong);;
        let per := 100 in
        chunks <- lift (chunk coords per);;
        _ <- for_each (fetch_chunk token) tt (enumerate 1 chunks);;
        emit (Stdout Done)
  end.

(** [main]; [token] is the environment variable, when it is set, and [file]
    the rows the reader yields from the CSV file, when the file exists (it
    is taken to be read without error). *)
Definition main (token : option string)
    (csv_path : string) (file : option (list (gmap string (option string))))
  : prog unit :=
  if negb (nonempty (default "" token)) then
    _ <- emit (Stderr SetMapboxToken);;
    lift (Raise (SystemExit 1))
  else
    match file with
    | None =>
        _ <- emit (Stderr (CsvNotFound csv_path));;
        lift (Raise (SystemExit 1))
    | Some csv =>
        addresses <- read_addresses csv;;
        match addresses with
        | [] =>
            _ <- emit (Stdout NoAddressesFound);;
            lift (Raise (SystemExit 0))
        | _ =>
            _ <- emit (Stdout (Found (length addresses)));;
            coords <- geocode_all addresses;;
            _ <- emit (Stdout (Resolved (length coords)));;
            render (default "" token) coords
        end
    end.
End WithEnv.

End GenerateMap.

(** ** Observations and reference definitions *)

Module Spec.
Import Py.

(** The addresses requested from the geocoding service, in request order. *)
Definition calls (tr : list event) : list string :=
  omap (λ e, match e with Geocode a => Some a | _ => None end) tr.

(** The downloads issued, in order. *)
Definition downloads (tr : list event) : list (string * string) :=
  omap (λ e, match e with Download url out => Some (url, out) | _ => None end) tr.

(** The documents handed to [json.dump], in order. *)
Definition dumps (tr : list event) : list value :=
  omap (λ e, match e with JsonDump _ doc => Some doc | _ => None end) tr.

(** No request of [tr] is issued while an earlier one still waits for its
    pause; [pending] tells whether a request is waiting when [tr] starts. *)
Fixpoint paced (pending : bool) (tr : list event) : bool :=
  match tr with
  | [] => true
  | Geocode _ :: tr' => negb pending && paced true tr'
  | Sleep :: tr' => paced false tr'
  | _ :: tr' => paced pending tr'
  end.

(** Whether a request still waits for its pause when [tr] ends. *)
Fixpoint waiting (pending : bool) (tr : list event) : bool :=
  match tr with
  | [] => pending
  | Geocode _ :: tr' => waiting true tr'
  | Sleep :: tr' => waiting false tr'
  | _ :: tr' => waiting pending tr'
  end.

(** The content of a column of a CSV line; nothing reads as the empty string. *)
Definition field (r : gmap string (option string)) (k : string) : string :=
  default "" (r !! k ≫= id).

(** Equality of strings up to the case of their letters. *)
Fixpoint eq_nocase (s t : string) : bool :=
  match s, t with
  | EmptyString, EmptyString => true
  | String c s', String d t' =>
      Ascii.eqb (lower_char c) (lower_char d) && eq_nocase s' t'
  | _, _ => false
  end.


(** The address built from a CSV line. *)
Definition full_address (r : gmap string (option string)) : string :=
  join ", " (List.filter nonempty [ strip (field r "Adres");
                                    strip (field r "Postcode");
                                    "Utrecht, Nederland" ]).

Section FirstSeen.
Context `{EqDecision A}.

(** Keep the first occurrence of every item, drop the later ones. *)
Fixpoint first_seen (xs : list A) : list A :=
  match xs with
  | [] => []
  | x :: xs' => x :: filter (λ y, y ≠ x) (first_seen xs')
  end.

(** Position of the first occurrence of [x] in [xs] (its length if none). *)
Fixpoint first_index (x : A) (xs : list A) : nat :=
  match xs with
  | [] => 0
  | y :: xs' => if decide (y = x) then 0 else S (first_index x xs')
  end.
End FirstSeen.

(** The locality test as a boolean. *)
Definition other_city_b (r : gmap string (option string)) : bool :=
  nonempty (strip (field r "Stad"))
  && negb (eq_nocase (strip (field r "Stad")) "Utrecht").

(** The properties kept from line [i] of the CSV file: the columns of [keep]
    under their short names, trimmed, then the line number under ["row"]. *)
Definition props_of (i : nat) (r : gmap string (option string))
  : list (string * value) :=
  map (λ kv, (kv.2, VStr (strip (field r kv.1)))) ExportGeojson.keep
  ++ [("row", VInt (Z.of_nat i))].

(** The feature written for line [i] once it is located at [c]. *)
Definition point (c : Qc * Qc) (i : nat) (r : gmap string (option string))
  : value :=
  ExportGeojson.feature c.1 c.2 (props_of i r).

(** The items the loop of export_geojson.py runs over, from line [k] on. *)
Definition items (k : nat) (csv : list (gmap string (option string)))
  : list (nat * gmap string value) :=
  imap (λ j r, (k + j, ExportGeojson.with_row (k + j) (cell <$> r))) csv.

(** The coordinate export_geojson.py obtains for line [i], if any: the line
    passes the locality test and its request returns a pair. *)
Definition resolved (E : env) (i : nat) (r : gmap string (option string))
  : option (Qc * Qc) :=
  if other_city_b r then None
  else match ExportGeojson.geocode E i (full_address r) with
       | Ok (Some c) => Some c
       | _ => None
       end.

(** What one turn of the loop of export_geojson.py issues for line [i]. *)
Definition turn_events (E : env) (i : nat) (r : gmap string (option string))
  : list event :=
  if other_city_b r then []
  else Geocode (full_address r)
       :: match ExportGeojson.geocode E i (full_address r) with
          | Ok (Some _) => [Sleep]
          | Ok None => [Stderr (NoResult (full_address r))]
          | Raise e => [ Stderr (GeocodingFailed (full_address r) e);
                         Stderr (NoResult (full_address r)) ]
          end.

(** The address generate_map.py keeps from a CSV line, if any: the line has a
    street and passes the locality test. *)
Definition kept (r : gmap string (option string)) : option string :=
  if negb (nonempty (strip (field r "Adres"))) then None
  else if other_city_b r then None
  else Some (full_address r).

(** The request for the map showing the coordinates [sub]. *)
Definition url_of (E : env) (token : string) (sub : list (Qc * Qc)) : string :=
  GenerateMap.build_static_url E (GenerateMap.build_marker_overlays E sub) token.

(** The file of the [i]-th chunk. *)
Definition chunk_file (i : nat) : string :=
  "utrecht_markers_" +:+ pretty i +:+ ".png".

(** What preparing the output file of export_geojson.py raises, if anything:
    creating the directory of [out_path], then opening [out_path]. *)
Definition writable (E : env) (out_path : string) : res unit :=
  rbind (makedirs E (dirname out_path)) (λ _, open_w E out_path).

(** The pauses taken, one item each. *)
Definition pauses (tr : list event) : list unit :=
  omap (λ e, match e with Sleep => Some tt | _ => None end) tr.

(** The addresses export_geojson.py reported as without result. *)
Definition no_results (tr : list event) : list string :=
  omap (λ e, match e with Stderr (NoResult a) => Some a | _ => None end) tr.

(** A value on which [(v or "").strip()] does not raise: a string, or
    anything false. *)
Definition textual (v : value) : bool :=
  match v with VStr _ => true | _ => negb (truthy v) end.

(** The text [(v or "").strip()] yields on such a value. *)
Definition text_of (v : value) : string :=
  match v with VStr s => strip s | _ => "" end.

(** [ceil(n / d)] *)
Definition ceil_div (n d : nat) : nat := (n + d - 1) / d.

End Spec.

(** ** Inputs used in the examples *)

Module Examples.
Import Py.

Fixpoint zeros (n : nat) : string :=
  match n with 0 => "" | S n' => String "0" (zeros n') end.

(** A rendering with six decimals, rounding to the nearest. *)
Definition fixed6 (q : Qc) : string :=
  let n := Qfloor (q * (1000000 # 1) + (1 # 2))%Q in
  let a := Z.abs n in
  let frac := pretty (a mod 1000000)%Z in
  (if (n <? 0)%Z then "-" else "") +:+ pretty (a / 1000000)%Z +:+ "."
  +:+ zeros (6 - String.length frac) +:+ frac.

(** An environment in which the service answers as [answers] says, every
    download succeeds and a token needs no quoting. *)
Definition world (answers : nat → string → response) : env :=
  {| net := answers;
     float_of_int := λ z, Ok (Q2Qc (inject_Z z));
     float_of_str := λ _, Raise ValueError;
     fmt6 := fixed6;
     quote_plus := λ s, s;
     store := λ _ _, Ok tt;
     mkdirs := λ _, Ok tt;
     open_w := λ _, Ok tt |}.

(** The answer of the service that places the address at [center]. *)
Definition found (center : value) : response :=
  Body (VDict [("type", VStr "FeatureCollection");
               ("features", VList [VDict [("center", center)]])]).

(** The answer of the service that knows no candidate. *)
Definition nothing : response :=
  Body (VDict [("type", VStr "FeatureCollection"); ("features", VList [])]).

Definition dom_tower : Qc * Qc :=
  (Q2Qc (5121311 # 1000000), Q2Qc (52090695 # 1000000)).

Definition center_of (c : Qc * Qc) : value := VList [VFloat c.1; VFloat c.2].

(** Three lines of a CSV file: one with a full address, the same household
    once more in other columns, and one whose street was left blank. *)
Definition domplein : gmap string (option string) :=
  {[ "Naam persoon A" := Some "Anna"; "Adres" := Some "Domplein 1";
     "Postcode" := Some "3512 JC"; "Stad" := Some "Utrecht";
     "Telefoon" := Some "06-12345678" ]}.

Definition housemate : gmap string (option string) :=
  {[ "Naam persoon A" := Some "Bram"; "Adres" := Some " Domplein 1";
     "Postcode" := Some "3512 JC"; "Stad" := Some "utrecht" ]}.

Definition no_street : gmap string (option string) :=
  {[ "Naam persoon A" := Some "Cato"; "Adres" := Some "  ";
     "Postcode" := Some "3511 AB"; "Stad" := Some "Utrecht" ]}.

Definition neude : gmap string (option string) :=
  {[ "Naam persoon A" := Some "Daan"; "Adres" := Some "Neude 11";
     "Stad" := Some "Utrecht" ]}.

Definition domplein_address : string := "Domplein 1, 3512 JC, Utrecht, Nederland".

(** A service that knows the Domplein and nothing else. *)
Definition knows_domplein : env :=
  world (λ _ address,
           if String.eqb address domplein_address
           then found (center_of dom_tower) else nothing).

(** A service that places every address at the Dom tower. *)
Definition always_dom : env := world (λ _ _, found (center_of dom_tower)).

(** A service whose answer carries a centre with one number only. *)
Definition short_center : env :=
  world (λ _ _, found (VList [VFloat dom_tower.1])).

(** A service that is down: every request fails. *)
Definition offline : env := world (λ _ _, Fails (URLError "unreachable")).

(** As [knows_domplein], but the second chunk cannot be stored. *)
Definition disk_full : env :=
  {| net := net knows_domplein;
     float_of_int := float_of_int knows_domplein;
     float_of_str := float_of_str knows_domplein;
     fmt6 := fixed6;
     quote_plus := λ s, s;
     store := λ _ out, if String.eqb out "utrecht_markers_2.png"
                       then Raise (URLError "no space left") else Ok tt;
     mkdirs := λ _, Ok tt;
     open_w := λ _, Ok tt |}.

(** A token so long that no request fits under the threshold. *)
Definition long_token : string := zeros (Z.to_nat 7800).

(** 250 distinct coordinates along a line. *)
Definition line_250 : list (Qc * Qc) :=
  map (λ k, (Q2Qc (Z.of_nat (5000 + k) # 1000), Q2Qc (52 # 1))) (seq 0 250).

End Examples.

(** * Properties *)

(** ** Strings and rows *)

Module PyFacts.
Import Py Spec.



Lemma lower_empty s : lower s = "" ↔ s = "".
Proof. destruct s; simpl; split; congruence. Qed.

Lemma nonempty_lower s : nonempty (lower s) = nonempty s.
Proof. by destruct s. Qed.

Lemma lower_char_idem c : lower_char (lower_char c) = lower_char c.
Proof.
  destruct c as [[] [] [] [] [] [] [] []]; vm_compute; reflexivity.
Qed.

(** Comparing the lowered text with the lowered name is comparing up to case. *)
Lemma eqb_lower_nocase s t :
  String.eqb (lower s) (lower t) = eq_nocase s t.
Proof.
  revert t. induction s as [|c s IH]; intros [|d t]; simpl; try done.
  by rewrite IH.
Qed.

Lemma eqb_lower_utrecht s :
  String.eqb (lower s) "utrecht" = eq_nocase s "Utrecht".
Proof. rewrite <- eqb_lower_nocase. reflexivity. Qed.

(** A cell of a CSV line never makes [text] raise. *)
Lemma text_cell (r : gmap string (option string)) k :
  text (cell <$> r) k = Ok (strip (field r k)).
Proof.
  unfold text, row_get, field. rewrite lookup_fmap.
  destruct (r !! k) as [[[|c s]|]|]; reflexivity.
Qed.

Lemma append_assoc (a b c : string) : (a +:+ b) +:+ c = a +:+ (b +:+ c).
Proof.
  induction a as [|x a IH]; [reflexivity|].
  change (String x ((a +:+ b) +:+ c) = String x (a +:+ b +:+ c)).
  by rewrite IH.
Qed.

Lemma join_app_last sep (ps : list string) p :
  ∃ pre, join sep (ps ++ [p]) = pre +:+ p.
Proof.
  induction ps as [|q ps [pre IH]]; simpl.
  - by exists "".
  - destruct (ps ++ [p]) as [|q' l] eqn:Hl.
    { by destruct ps. }
    exists (q +:+ sep +:+ pre). rewrite IH.
    by rewrite !append_assoc.
Qed.

Lemma imap_cons_shift {A B} (f : nat → A → B) k x (l : list A) :
  imap (λ j, f (k + j)) (x :: l) = f k x :: imap (λ j, f (S k + j)) l.
Proof.
  rewrite imap_cons, Nat.add_0_r. f_equal.
  apply imap_ext. intros j y _. simpl. by rewrite Nat.add_succ_r.
Qed.

Lemma calls_app tr1 tr2 : calls (tr1 ++ tr2) = calls tr1 ++ calls tr2.
Proof. apply omap_app. Qed.

Lemma dumps_app tr1 tr2 : dumps (tr1 ++ tr2) = dumps tr1 ++ dumps tr2.
Proof. apply omap_app. Qed.

Lemma downloads_app tr1 tr2 :
  downloads (tr1 ++ tr2) = downloads tr1 ++ downloads tr2.
Proof. apply omap_app. Qed.

Lemma paced_app tr1 tr2 : ∀ b,
  paced b (tr1 ++ tr2) = paced b tr1 && paced (waiting b tr1) tr2.
Proof.
  induction tr1 as [|e tr1 IH]; intros b; [done|].
  destruct e; simpl; rewrite ?IH; try done.
  by rewrite andb_assoc.
Qed.

Lemma waiting_app tr1 tr2 : ∀ b,
  waiting b (tr1 ++ tr2) = waiting (waiting b tr1) tr2.
Proof.
  induction tr1 as [|e tr1 IH]; intros b; [done|].
  destruct e; simpl; by rewrite ?IH.
Qed.

Example dirname_examples :
  dirname "data/duos_points.geojson" = "data"
  ∧ dirname "duos_points.geojson" = ""
  ∧ dirname "out/2024//points.geojson" = "out/2024"
  ∧ dirname "/points.geojson" = "/".
Proof. vm_compute. done. Qed.

Lemma for_each_cons {A X} (body : A → X → prog A) acc x xs tr :
  for_each body acc (x :: xs) tr
  = match body acc x tr with
    | (tr', Ok acc') => for_each body acc' xs tr'
    | (tr', Raise e) => (tr', Raise e)
    end.
Proof. reflexivity. Qed.

End PyFacts.

(** ** export_geojson.py: address building and the locality test *)

Module ExportFacts.
Import Py Spec PyFacts ExportGeojson.

Lemma text_with_row i (r : gmap string (option string)) k :
  k ≠ "__row" → text (with_row i (cell <$> r)) k = Ok (strip (field r k)).
Proof.
  intros Hk. rewrite <- text_cell. unfold text, row_get, with_row.
  by rewrite lookup_insert_ne.
Qed.

Lemma build_full_address_csv i (r : gmap string (option string)) :
  build_full_address (with_row i (cell <$> r)) = Ok (full_address r).
Proof.
  unfold build_full_address. by rewrite !text_with_row.
Qed.

(** The built string ends with the fixed suffix. *)
Lemma address_suffix (adres postcode : string) :
  ∃ pre, join ", " (List.filter nonempty [adres; postcode; "Utrecht, Nederland"])
         = pre +:+ "Utrecht, Nederland".
Proof.
  destruct adres as [|a adres], postcode as [|b postcode]; simpl.
  - by exists "".
  - exists (String b postcode +:+ ", "). by rewrite append_assoc.
  - exists (String a adres +:+ ", "). by rewrite append_assoc.
  - exists (String a adres +:+ ", " +:+ String b postcode +:+ ", ").
    by rewrite !append_assoc.
Qed.

Lemma append_nonempty (pre s : string) : s ≠ "" → pre +:+ s ≠ "".
Proof. destruct pre, s; done. Qed.

Lemma build_full_address_suffix row address :
  build_full_address row = Ok address →
  ∃ pre, address = pre +:+ "Utrecht, Nederland".
Proof.
  unfold build_full_address.
  destruct (text row "Adres") as [adres|]; [|done].
  destruct (text row "Postcode") as [postcode|]; [|done].
  simpl. intros [= <-]. apply address_suffix.
Qed.

Lemma route_of_csv i (r : gmap string (option string)) :
  route_of (with_row i (cell <$> r))
  = Ok (if nonempty (strip (field r "Stad"))
           && negb (eq_nocase (strip (field r "Stad")) "Utrecht")
        then Excluded else Lookup (full_address r)).
Proof.
  unfold route_of. rewrite text_with_row; [|done]. simpl.
  rewrite nonempty_lower, eqb_lower_utrecht.
  destruct (_ && _); [done|].
  rewrite build_full_address_csv. simpl.
  destruct (address_suffix (strip (field r "Adres")) (strip (field r "Postcode")))
    as [pre Hpre].
  unfold full_address. rewrite Hpre.
  by destruct pre.
Qed.

Lemma row_get_with_row i (row : gmap string value) :
  row_get (with_row i row) "__row" = VInt (Z.of_nat i).
Proof. unfold row_get, with_row. by rewrite lookup_insert_eq. Qed.

(** [sanitize_props] never raises on a row of [read_rows]. *)
Lemma sanitize_props_csv i (r : gmap string (option string)) :
  sanitize_props (with_row i (cell <$> r)) = Ok (props_of i r).
Proof.
  unfold sanitize_props, keep, comprehension.
  rewrite !text_with_row by (vm_compute; discriminate).
  by rewrite row_get_with_row.
Qed.

Lemma props_of_row i r : items_get "row" (props_of i r) = Some (VInt (Z.of_nat i)).
Proof. reflexivity. Qed.

Section WithEnv.
Variable E : env.

(** One turn of the loop on a row of [read_rows]. *)
Lemma body_csv features i (r : gmap string (option string)) tr :
  body E features (i, with_row i (cell <$> r)) tr
  = (tr ++ turn_events E i r,
     Ok (features ++ option_list ((λ c, point c i r) <$> resolved E i r))).
Proof.
  unfold body, bind, lift, turn_events, resolved, other_city_b.
  rewrite route_of_csv.
  destruct (_ && _).
  { simpl. by rewrite !app_nil_r. }
  unfold emit, ret.
  destruct (geocode E i (full_address r)) as [[[lon lat]|]|e]; simpl.
  - rewrite sanitize_props_csv. by rewrite <- !app_assoc.
  - by rewrite <- !app_assoc, app_nil_r.
  - by rewrite <- !app_assoc, app_nil_r.
Qed.

Lemma items_cons k r csv :
  items k (r :: csv) = (k, with_row k (cell <$> r)) :: items (S k) csv.
Proof.
  unfold items. rewrite imap_cons, Nat.add_0_r. f_equal.
  apply imap_ext. intros j x _. simpl. by rewrite Nat.add_succ_r.
Qed.

Lemma imap_imap_map {A B C D} (h : A → B) (f : nat → B → C)
    (g : nat → C → D) (l : list A) :
  imap g (imap f (map h l)) = imap (λ j x, g j (f j (h x))) l.
Proof.
  revert f g. induction l as [|x l IH]; intros f g; [done|].
  simpl map. rewrite !imap_cons. f_equal. apply IH.
Qed.

Lemma enumerate_read_rows csv : enumerate 0 (read_rows csv) = items 0 csv.
Proof.
  unfold enumerate, read_rows, reader, items. apply imap_imap_map.
Qed.

Lemma loop_csv csv : ∀ k features tr,
  for_each (body E) features (items k csv) tr
  = (tr ++ concat (imap (λ j, turn_events E (k + j)) csv),
     Ok (features
         ++ omap id (imap (λ j r, (λ c, point c (k + j) r)
                                   <$> resolved E (k + j) r) csv))).
Proof.
  induction csv as [|r csv IH]; intros k features tr.
  - simpl. by rewrite !app_nil_r.
  - rewrite items_cons, for_each_cons, body_csv, IH, !imap_cons, !Nat.add_0_r.
    assert (H1 : imap ((λ j, turn_events E (k + j)) ∘ S) csv
                 = imap (λ j, turn_events E (S k + j)) csv).
    { apply imap_ext. intros j x _. simpl. by rewrite Nat.add_succ_r. }
    assert (H2 : imap ((λ j r, (λ c, point c (k + j) r)
                                <$> resolved E (k + j) r) ∘ S) csv
                 = imap (λ j r, (λ c, point c (S k + j) r)
                                <$> resolved E (S k + j) r) csv).
    { apply imap_ext. intros j x _. simpl. by rewrite Nat.add_succ_r. }
    rewrite H1, H2. simpl.
    destruct (resolved E k r); simpl; by rewrite <- !app_assoc.
Qed.
(** The whole run: the loop never raises; the document is written when the
    output file can be prepared, and the run ends with the error otherwise. *)
Lemma export_csv csv out_path tr :
  let features :=
    omap id (imap (λ i r, (λ c, point c i r) <$> resolved E i r) csv) in
  export E csv out_path tr
  = match writable E out_path with
    | Ok _ =>
        (tr ++ concat (imap (turn_events E) csv)
            ++ [ JsonDump out_path
                   (VDict [ ("type", VStr "FeatureCollection");
                            ("features", VList features) ]);
                 Stdout (Wrote (length features) out_path) ],
         Ok tt)
    | Raise e => (tr ++ concat (imap (turn_events E) csv), Raise e)
    end.
Proof.
  intros features. unfold export, bind.
  rewrite enumerate_read_rows, loop_csv. simpl.
  unfold lift, writable.
  destruct (makedirs E (dirname out_path)) as [[]|e]; simpl; [|done].
  destruct (open_w E out_path) as [[]|e]; simpl; [|done].
  unfold emit. by rewrite <- !app_assoc.
Qed.

Lemma calls_turn i r :
  calls (turn_events E i r)
  = if other_city_b r then [] else [full_address r].
Proof.
  unfold turn_events. destruct (other_city_b r); [done|].
  by destruct (geocode E i (full_address r)) as [[?|]|?].
Qed.

Lemma dumps_turn i r : dumps (turn_events E i r) = [].
Proof.
  unfold turn_events. destruct (other_city_b r); [done|].
  by destruct (geocode E i (full_address r)) as [[?|]|?].
Qed.

Lemma calls_turns csv : ∀ k,
  calls (concat (imap (λ j, turn_events E (k + j)) csv))
  = omap (λ r, if other_city_b r then None else Some (full_address r)) csv.
Proof.
  induction csv as [|r csv IH]; intros k; [done|].
  rewrite imap_cons_shift. cbn [concat].
  rewrite calls_app, IH, calls_turn.
  destruct (other_city_b r) eqn:Hb; simpl; by rewrite Hb.
Qed.

Lemma dumps_turns csv : ∀ k,
  dumps (concat (imap (λ j, turn_events E (k + j)) csv)) = [].
Proof.
  induction csv as [|r csv IH]; intros k; [done|].
  rewrite imap_cons_shift. cbn [concat].
  by rewrite dumps_app, IH, dumps_turn.
Qed.
Lemma calls_export csv :
  calls (concat (imap (turn_events E) csv))
  = omap (λ r, if other_city_b r then None else Some (full_address r)) csv.
Proof. exact (calls_turns csv 0). Qed.

Lemma dumps_export csv : dumps (concat (imap (turn_events E) csv)) = [].
Proof. exact (dumps_turns csv 0). Qed.

(** The requests of a run, whether or not the output gets written. *)
Lemma calls_run csv out_path :
  calls (export E csv out_path []).1
  = omap (λ r, if other_city_b r then None else Some (full_address r)) csv.
Proof.
  rewrite export_csv.
  destruct (writable E out_path) as [[]|e]; cbn [fst app].
  - rewrite calls_app, calls_export. simpl. by rewrite app_nil_r.
  - apply calls_export.
Qed.
End WithEnv.

End ExportFacts.

(** ** generate_map.py: the rows kept by [read_addresses] *)

Module MapFacts.
Import Py Spec PyFacts GenerateMap.

Lemma row_address_csv (r : gmap string (option string)) :
  row_address (cell <$> r)
  = Ok (if negb (nonempty (strip (field r "Adres"))) then NoStreet
        else if nonempty (strip (field r "Stad"))
                && negb (eq_nocase (strip (field r "Stad")) "Utrecht")
             then OtherCity
             else Address (full_address r)).
Proof.
  unfold row_address. rewrite !text_cell.
  cbv [rbind]. rewrite eqb_lower_utrecht.
  destruct (negb (nonempty (strip (field r "Adres")))); [done|].
  by destruct (_ && _).
Qed.

Lemma enumerate_cons {X} k (x : X) xs :
  enumerate k (x :: xs) = (k, x) :: enumerate (S k) xs.
Proof. unfold enumerate. apply (imap_cons_shift (λ n y, (n, y))). Qed.

Lemma collect_csv addresses (r : gmap string (option string)) tr :
  collect addresses (cell <$> r) tr
  = (tr, Ok (addresses ++ option_list (kept r))).
Proof.
  unfold collect, bind, lift, kept, other_city_b. rewrite row_address_csv.
  destruct (negb _); simpl; [by rewrite app_nil_r|].
  destruct (_ && _); simpl; by rewrite ?app_nil_r.
Qed.

(** [read_addresses] never raises and prints nothing. *)
Lemma read_addresses_csv csv tr :
  read_addresses csv tr = (tr, Ok (dedup (omap kept csv))).
Proof.
  unfold read_addresses, bind, reader.
  assert (Hloop : ∀ addresses,
    for_each collect addresses (map (fmap cell) csv) tr
    = (tr, Ok (addresses ++ omap kept csv))).
  { induction csv as [|r csv IH]; intros addresses; simpl map.
    - simpl. by rewrite app_nil_r.
    - rewrite for_each_cons, collect_csv, IH. simpl.
      destruct (kept r); simpl; by rewrite <- ?app_assoc, ?app_nil_r. }
  by rewrite Hloop.
Qed.

Lemma ceil_div_0 n : 0 < n → ceil_div 0 n = 0.
Proof. intros. unfold ceil_div. apply Nat.div_small. lia. Qed.

Lemma ceil_div_step m n : 0 < n → 0 < m → ceil_div m n = S (ceil_div (m - n) n).
Proof.
  intros Hn Hm. unfold ceil_div. destruct (Nat.le_gt_cases n m).
  - replace (m + n - 1) with ((m - n + n - 1) + 1 * n) by lia.
    rewrite Nat.div_add by lia. lia.
  - replace (m - n + n - 1) with (n - 1) by lia.
    rewrite (Nat.div_small (n - 1)) by lia.
    replace (m + n - 1) with ((m - 1) + 1 * n) by lia.
    rewrite Nat.div_add by lia. rewrite Nat.div_small by lia. lia.
Qed.

Section Chunks.
Context {A : Type}.
Implicit Types (xs : list A).

(** The chunks cut from position [i] on: together they are the rest of the
    list, and each is as long as the step allows. *)
Lemma chunks_from xs n : 0 < n → ∀ fuel i : nat,
  (length xs - i ≤ fuel)%nat →
  let cs := map (λ j, slice xs j (j + n)) (range_from fuel i (length xs) n) in
  concat cs = drop i xs
  ∧ length cs = ceil_div (length xs - i) n
  ∧ ∀ k sub, cs !! k = Some sub →
             length sub = min n (length xs - i - k * n).
Proof.
  intros Hn. induction fuel as [|fuel IH]; intros i Hfuel.
  - simpl. split; [by rewrite drop_ge by lia|].
    split; [|done].
    replace (length xs - i) with 0 by lia. by rewrite ceil_div_0.
  - simpl range_from. destruct (i <? length xs) eqn:Hi.
    + apply Nat.ltb_lt in Hi.
      destruct (IH (i + n)) as (Hcat & Hlen & Hsub); [lia|].
      simpl map. split; [|split].
      * cbn [concat]. rewrite Hcat. unfold slice.
        replace (i + n - i) with n by lia.
        rewrite <- (drop_drop xs n i). apply take_drop.
      * simpl length. rewrite Hlen.
        rewrite (ceil_div_step (length xs - i) n) by lia.
        do 2 f_equal. lia.
      * intros [|k] sub Hk.
        -- injection Hk as <-. unfold slice.
           rewrite length_take, length_drop. lia.
        -- rewrite (Hsub k sub Hk). lia.
    + apply Nat.ltb_ge in Hi. simpl.
      split; [by rewrite drop_ge by lia|]. split; [|done].
      replace (length xs - i) with 0 by lia. by rewrite ceil_div_0.
Qed.

(** [chunk] returns for a positive size; its chunks are the list cut in
    order into pieces of that size, the last one holding what is left. *)
Lemma chunk_spec xs n : 0 < n →
  ∃ cs, chunk xs n = Ok cs
        ∧ concat cs = xs
        ∧ length cs = ceil_div (length xs) n
        ∧ ∀ k sub, cs !! k = Some sub →
                   length sub = min n (length xs - k * n).
Proof.
  intros Hn. unfold chunk, range.
  destruct n as [|n]; [lia|]. simpl rbind.
  destruct (chunks_from xs (S n) Hn (length xs) 0) as (Hcat & Hlen & Hsub);
    [lia|].
  eexists. split; [done|].
  rewrite Nat.sub_0_r in Hlen. split; [done|]. split; [done|].
  intros k sub Hk. rewrite (Hsub k sub Hk). lia.
Qed.
End Chunks.

Section WithEnv.
Variable E : env.

(** One turn of the loop of [geocode_all] issues exactly one request,
    whatever comes back. *)
Lemma lookup_calls coords idx addr tr :
  calls (lookup E coords (idx, addr) tr).1 = calls tr ++ [addr].
Proof.
  unfold lookup, bind, emit, ret, lift.
  destruct (geocode_address E idx addr) as [c|e]; simpl.
  - destruct (truthy c); simpl.
    + destruct (subscript c 0) as [c0|]; simpl; [|by rewrite calls_app].
      destruct (float E c0); simpl; [|by rewrite calls_app].
      destruct (subscript c 1) as [c1|]; simpl; [|by rewrite calls_app].
      destruct (float E c1); simpl; [|by rewrite calls_app].
      by rewrite !calls_app, app_nil_r.
    + by rewrite !calls_app, !app_nil_r.
  - by rewrite !calls_app, !app_nil_r.
Qed.

(** The requests of [geocode_all] go through the addresses in order, each
    once, and stop where a turn raises. *)
Lemma lookups_calls addresses : ∀ k coords tr,
  ∃ n, calls (for_each (lookup E) coords (enumerate k addresses) tr).1
       = calls tr ++ take n addresses.
Proof.
  induction addresses as [|addr addresses IH]; intros k coords tr.
  - exists 0. simpl. by rewrite app_nil_r.
  - rewrite enumerate_cons, for_each_cons.
    pose proof (lookup_calls coords k addr tr) as Hc.
    destruct (lookup E coords (k, addr) tr) as [tr' [coords'|e]].
    + destruct (IH (S k) coords' tr') as [n Hn]. exists (S n).
      rewrite Hn. simpl in Hc. rewrite Hc. by rewrite <- app_assoc.
    + exists 1. simpl in *. by rewrite Hc.
Qed.

Lemma geocode_all_calls addresses tr :
  ∃ n, calls (geocode_all E addresses tr).1 = calls tr ++ take n addresses.
Proof.
  unfold geocode_all, bind.
  destruct (lookups_calls addresses 1 [] tr) as [n Hn]. exists n.
  by destruct (for_each (lookup E) [] (enumerate 1 addresses) tr) as [tr' [?|?]].
Qed.

Lemma download_calls url out tr :
  calls (download E url out tr).1 = calls tr.
Proof.
  unfold download, bind, emit, lift.
  destruct (store E url out); simpl; by rewrite calls_app, app_nil_r.
Qed.

Lemma fetch_chunk_download token i sub tr :
  fetch_chunk E token tt (i, sub) tr
  = download E (build_static_url E (build_marker_overlays E sub) token)
      ("utrecht_markers_" +:+ pretty i +:+ ".png")
      (tr ++ [Stdout (Downloading ("utrecht_markers_" +:+ pretty i +:+ ".png"))]).
Proof. reflexivity. Qed.

Lemma fetch_chunks_calls token items : ∀ tr,
  calls (for_each (fetch_chunk E token) tt items tr).1 = calls tr.
Proof.
  induction items as [|[i sub] items IH]; intros tr; [done|].
  rewrite for_each_cons.
  assert (Hc : calls (fetch_chunk E token tt (i, sub) tr).1 = calls tr).
  { rewrite fetch_chunk_download, download_calls.
    by rewrite calls_app, app_nil_r. }
  destruct (fetch_chunk E token tt (i, sub) tr) as [tr' [[]|e]]; simpl in *.
  - by rewrite IH.
  - done.
Qed.

(** Nothing is geocoded once the coordinates are known. *)
Lemma render_calls token coords tr :
  calls (render E token coords tr).1 = calls tr.
Proof.
  unfold render. destruct coords as [|c coords].
  { unfold bind, emit, lift. simpl. by rewrite calls_app, app_nil_r. }
  destruct (_ <? _)%Z.
  - unfold bind at 1 2. unfold emit at 1.
    pose proof (download_calls
      (build_static_url E (build_marker_overlays E (c :: coords)) token)
      "utrecht_markers.png" (tr ++ [Stdout (Downloading "utrecht_markers.png")]))
      as Hd.
    destruct (download E _ _ _) as [tr' [[]|e]]; simpl in *;
      rewrite ?calls_app in *; simpl in *; by rewrite ?app_nil_r in *.
  - unfold bind at 1 2. unfold emit at 1, lift.
    destruct (chunk (c :: coords) 100) as [chunks|e]; simpl;
      [|by rewrite calls_app, app_nil_r].
    unfold bind.
    pose proof (fetch_chunks_calls token (enumerate 1 chunks)
                  (tr ++ [Stdout UrlTooLong])) as Hf.
    destruct (for_each _ _ _ _) as [tr' [[]|e]]; simpl in *;
      unfold emit; simpl; rewrite ?calls_app, Hf, calls_app; simpl;
      by rewrite ?app_nil_r.
Qed.
(** When no download fails, the loop over the chunks downloads each of them
    in turn. *)
Lemma fetch_chunks_ok token chunks :
  (∀ url out, store E url out = Ok tt) →
  ∀ k tr,
    for_each (fetch_chunk E token) tt (enumerate k chunks) tr
    = (tr ++ concat (imap (λ j sub,
                             [ Stdout (Downloading (chunk_file (k + j)));
                               Download (url_of E token sub) (chunk_file (k + j)) ])
                       chunks),
       Ok tt).
Proof.
  intros Hok. induction chunks as [|sub chunks IH]; intros k tr.
  - simpl. by rewrite app_nil_r.
  - rewrite enumerate_cons, for_each_cons, fetch_chunk_download.
    unfold download, bind, emit, lift. rewrite Hok, IH.
    rewrite (imap_cons_shift
               (λ n sub, [ Stdout (Downloading (chunk_file n));
                           Download (url_of E token sub) (chunk_file n) ])).
    cbn [concat]. by rewrite <- !app_assoc.
Qed.

Lemma downloads_chunks token chunks : ∀ k,
  downloads (concat (imap (λ j sub,
                             [ Stdout (Downloading (chunk_file (k + j)));
                               Download (url_of E token sub) (chunk_file (k + j)) ])
                       chunks))
  = imap (λ j sub, (url_of E token sub, chunk_file (k + j))) chunks.
Proof.
  induction chunks as [|sub chunks IH]; intros k; [done|].
  rewrite (imap_cons_shift
             (λ n sub, [ Stdout (Downloading (chunk_file n));
                         Download (url_of E token sub) (chunk_file n) ])).
  rewrite (imap_cons_shift (λ n sub, (url_of E token sub, chunk_file n))).
  cbn [concat]. by rewrite downloads_app, IH.
Qed.

(** One turn of the loop of [geocode_all] keeps the pace: its request comes
    after the pause of the previous one, and when the turn completes its own
    pause has been taken. *)
Lemma lookup_paced coords idx addr tr :
  paced false tr = true → waiting false tr = false →
  paced false (lookup E coords (idx, addr) tr).1 = true
  ∧ ∀ coords', (lookup E coords (idx, addr) tr).2 = Ok coords' →
               waiting false (lookup E coords (idx, addr) tr).1 = false.
Proof.
  intros Hp Hw. unfold lookup, bind, emit, ret, lift.
  destruct (geocode_address E idx addr) as [c|e]; simpl.
  - destruct (truthy c); simpl.
    + destruct (subscript c 0) as [c0|]; simpl;
        [|by rewrite paced_app, Hp, Hw].
      destruct (float E c0); simpl; [|by rewrite paced_app, Hp, Hw].
      destruct (subscript c 1) as [c1|]; simpl;
        [|by rewrite paced_app, Hp, Hw].
      destruct (float E c1); simpl; [|by rewrite paced_app, Hp, Hw].
      by rewrite !paced_app, !waiting_app, Hp, Hw.
    + by rewrite !paced_app, !waiting_app, Hp, Hw.
  - by rewrite !paced_app, !waiting_app, Hp, Hw.
Qed.

Lemma lookups_paced addresses : ∀ k coords tr,
  paced false tr = true → waiting false tr = false →
  paced false (for_each (lookup E) coords (enumerate k addresses) tr).1 = true.
Proof.
  induction addresses as [|addr addresses IH]; intros k coords tr Hp Hw;
    [done|].
  rewrite enumerate_cons, for_each_cons.
  destruct (lookup_paced coords k addr tr Hp Hw) as [Hp' Hw'].
  destruct (lookup E coords (k, addr) tr) as [tr' [coords'|e]]; simpl in *.
  - apply IH; [done|]. by eapply Hw'.
  - done.
Qed.

(** In generate_map.py every request is followed by its pause before the
    next one, whatever the service answers. *)
Lemma geocode_all_paced addresses :
  paced false (geocode_all E addresses []).1 = true.
Proof.
  unfold geocode_all, bind.
  pose proof (lookups_paced addresses 1 [] [] eq_refl eq_refl) as Hp.
  by destruct (for_each (lookup E) [] (enumerate 1 addresses) []) as [tr [?|?]].
Qed.

(** The requests of a whole run are an initial part of the deduplicated
    addresses. *)
Lemma main_calls token csv_path csv :
  ∃ n, calls (main E token csv_path (Some csv) []).1
       = take n (dedup (omap kept csv)).
Proof.
  unfold main. destruct (negb _).
  { by exists 0. }
  unfold bind at 1. rewrite read_addresses_csv.
  destruct (dedup (omap kept csv)) as [|a addresses] eqn:Hd.
  { by exists 0. }
  unfold bind at 1 2 3. unfold emit at 1.
  destruct (geocode_all_calls (a :: addresses)
              ([] ++ [Stdout (Found (length (a :: addresses)))])) as [n Hn].
  exists n.
  destruct (geocode_all E (a :: addresses) _) as [tr' [coords|e]];
    simpl in Hn; [|done].
  unfold emit. rewrite render_calls, calls_app, Hn. simpl.
  by rewrite app_nil_r.
Qed.
End WithEnv.

End MapFacts.

(** ** The deduplication loop *)

Module DedupFacts.
Import Py Spec.

Section Dedup.
Context `{Countable A}.
Implicit Types (xs acc : list A) (seen : gset A).

(** The loop run from any point: the items not seen so far are appended in
    the order of their first occurrence. *)
Lemma dedup_fold xs seen acc :
  (fold_left dedup_step xs (seen, acc)).2
  = acc ++ filter (λ y, y ∉ seen) (first_seen xs).
Proof.
  revert seen acc. induction xs as [|x xs IH]; intros seen acc; simpl.
  - by rewrite app_nil_r.
  - destruct (decide (x ∈ seen)) as [Hin|Hin]; rewrite IH.
    + f_equal. rewrite filter_cons_False by (by intros ?).
      rewrite list_filter_filter. apply list_filter_iff.
      intros y. split; [|by intros [? _]].
      intros Hy. split; [done|]. by intros ->.
    + rewrite <- app_assoc. f_equal. simpl.
      rewrite filter_cons_True by done. f_equal.
      rewrite list_filter_filter. apply list_filter_iff.
      intros y. set_solver.
Qed.

Lemma dedup_first_seen xs : dedup xs = first_seen xs.
Proof.
  unfold dedup. rewrite dedup_fold. simpl.
  induction (first_seen xs) as [|y l IH]; [done|].
  rewrite filter_cons_True by set_solver. by f_equal.
Qed.

Lemma elem_of_first_seen xs x : x ∈ first_seen xs ↔ x ∈ xs.
Proof.
  induction xs as [|y xs IH]; simpl; [done|].
  rewrite !elem_of_cons, list_elem_of_filter, IH.
  destruct (decide (x = y)); naive_solver.
Qed.

Lemma NoDup_first_seen xs : NoDup (first_seen xs).
Proof.
  induction xs as [|y xs IH]; simpl; [constructor|].
  apply NoDup_cons. split; [|by apply NoDup_filter].
  rewrite list_elem_of_filter. by intros [? _].
Qed.

Lemma StronglySorted_fmap_filter (R : relation nat) (f : A → nat)
    (P : A → Prop) `{∀ x, Decision (P x)} xs :
  StronglySorted R (f <$> xs) → StronglySorted R (f <$> filter P xs).
Proof.
  induction xs as [|z xs IH]; [done|].
  rewrite fmap_cons. intros [Hf Hs]%StronglySorted_cons.
  rewrite filter_cons. destruct (decide (P z)); [|by apply IH].
  rewrite fmap_cons. apply StronglySorted_cons. split; [|by apply IH].
  rewrite Forall_fmap, Forall_forall in Hf.
  rewrite Forall_fmap, Forall_forall.
  intros w [_ Hw]%list_elem_of_filter. by apply Hf.
Qed.

(** The kept items stand in the order of their first occurrences. *)
Lemma first_seen_sorted xs :
  StronglySorted lt ((λ x, first_index x xs) <$> first_seen xs).
Proof.
  induction xs as [|y xs IH]; [constructor|].
  cbn [first_seen]. rewrite fmap_cons.
  assert (Htl : (λ x, first_index x (y :: xs)) <$> filter (λ z, z ≠ y) (first_seen xs)
                = S <$> ((λ x, first_index x xs) <$> filter (λ z, z ≠ y) (first_seen xs))).
  { rewrite <- list_fmap_compose. apply Forall_fmap_ext_1, Forall_forall.
    intros z [Hz _]%list_elem_of_filter. simpl.
    by rewrite decide_False by done. }
  rewrite Htl. apply StronglySorted_cons. split.
  - apply Forall_fmap, Forall_true. intros n. simpl.
    rewrite decide_True by done. lia.
  - apply StronglySorted_fmap with (R1 := lt); [intros ???; simpl; lia|].
    by apply StronglySorted_fmap_filter.
Qed.
End Dedup.

End DedupFacts.

(** ** The locality test and the address suffix *)






(** C10. The address built by export_geojson.py always ends with
    "Utrecht, Nederland": it is built for every CSV row, it is never empty,
    and the loop never takes its branch for an empty address. *)
Theorem C10_address_never_empty :
  (∀ i (r : gmap string (option string)),
     ∃ pre, ExportGeojson.build_full_address
              (ExportGeojson.with_row i (Py.cell <$> r))
            = Py.Ok (pre +:+ "Utrecht, Nederland"))
  ∧ (∀ row address,
       ExportGeojson.build_full_address row = Py.Ok address →
       (∃ pre, address = pre +:+ "Utrecht, Nederland") ∧ address ≠ "")
  ∧ (∀ row, ExportGeojson.route_of row ≠ Py.Ok ExportGeojson.EmptyAddress).
Proof.
  split; [|split].
  - intros i r. rewrite ExportFacts.build_full_address_csv.
    destruct (ExportFacts.address_suffix (Py.strip (Spec.field r "Adres"))
                (Py.strip (Spec.field r "Postcode"))) as [pre Hpre].
    exists pre. unfold Spec.full_address. by rewrite Hpre.
  - intros row address H.
    destruct (ExportFacts.build_full_address_suffix _ _ H) as [pre ->].
    split; [by exists pre|]. by apply ExportFacts.append_nonempty.
  - intros row. unfold ExportGeojson.route_of.
    destruct (Py.text row "Stad") as [stad|]; [|done]. simpl.
    destruct (_ && _); [done|].
    destruct (ExportGeojson.build_full_address row) as [address|] eqn:Ha;
      [|done].
    destruct (ExportFacts.build_full_address_suffix _ _ Ha) as [pre ->].
    simpl. destruct pre; done.
Qed.

(** A row with neither street nor postal code still gets an address. *)
Lemma C10_address_never_empty_witness :
  let row : gmap string Py.value := {[ "Adres" := Py.VStr "  " ]} in
  ExportGeojson.build_full_address row = Py.Ok "Utrecht, Nederland"
  ∧ "Utrecht, Nederland" ≠ "".
Proof.
  intros row.
  assert (H : ExportGeojson.build_full_address row = Py.Ok "Utrecht, Nederland")
    by (vm_compute; reflexivity).
  split; [exact H|].
  exact (proj2 (proj1 (proj2 C10_address_never_empty) row _ H)).
Defined.

(** ** The deduplication *)

(** C4. The deduplication keeps each distinct item exactly once, in the order
    of first occurrence, for any type of items compared by value (address
    strings, coordinate pairs): the result has no repetition, has the same
    members as the input, lists them by increasing position of their first
    occurrence, and is the input with the later duplicates removed. *)
Theorem C4_dedup_first_seen {A} `{Countable A} (xs : list A) :
  NoDup (Py.dedup xs)
  ∧ (∀ x, x ∈ Py.dedup xs ↔ x ∈ xs)
  ∧ StronglySorted lt ((λ x, Spec.first_index x xs) <$> Py.dedup xs)
  ∧ Py.dedup xs = Spec.first_seen xs.
Proof.
  rewrite DedupFacts.dedup_first_seen.
  split; [apply DedupFacts.NoDup_first_seen|].
  split; [apply DedupFacts.elem_of_first_seen|].
  split; [apply DedupFacts.first_seen_sorted|done].
Qed.

Example dedup_addresses :
  Py.dedup [ Examples.domplein_address; "Neude 11, Utrecht, Nederland";
             Examples.domplein_address ]
  = [ Examples.domplein_address; "Neude 11, Utrecht, Nederland" ].
Proof. vm_compute. reflexivity. Qed.

Example dedup_coordinates :
  Py.dedup [ Examples.dom_tower; (0%Qc, 1%Qc); Examples.dom_tower; (0%Qc, 1%Qc) ]
  = [ Examples.dom_tower; (0%Qc, 1%Qc) ].
Proof. vm_compute. reflexivity. Qed.

(** ** The properties kept in the output *)

Lemma text_ext (row1 row2 : gmap string Py.value) k :
  row1 !! k = row2 !! k → Py.text row1 k = Py.text row2 k.
Proof. intros Hk. unfold Py.text, Py.row_get. by rewrite Hk. Qed.

Lemma comprehension_ext (row1 row2 : gmap string Py.value) pairs :
  (∀ k, k ∈ pairs.*1 → row1 !! k = row2 !! k) →
  ∀ out, ExportGeojson.comprehension row1 pairs out
         = ExportGeojson.comprehension row2 pairs out.
Proof.
  induction pairs as [|[k v] pairs IH]; intros Hagree out; [done|].
  simpl. rewrite (text_ext row1 row2 k) by (apply Hagree; left).
  destruct (Py.text row2 k); [|done]. simpl.
  apply IH. intros k' Hk'. apply Hagree. by right.
Qed.

(** C9. Two rows that agree on the allow-listed columns and on the row
    index get the same properties, whatever their other columns hold; the
    properties are exactly the short names of the allow-listed columns and
    the key "row"; and for a row read from the CSV file they are the trimmed
    allow-listed cells and the row index. *)
Theorem C9_sanitize_props (row1 row2 : gmap string Py.value) :
  (∀ k, k ∈ ExportGeojson.keep.*1 → row1 !! k = row2 !! k) →
  row1 !! "__row" = row2 !! "__row" →
  ExportGeojson.sanitize_props row1 = ExportGeojson.sanitize_props row2
  ∧ (∀ out, ExportGeojson.sanitize_props row1 = Py.Ok out →
            out.*1 = ExportGeojson.keep.*2 ++ ["row"])
  ∧ (∀ i (r : gmap string (option string)),
       ExportGeojson.sanitize_props (ExportGeojson.with_row i (Py.cell <$> r))
       = Py.Ok (Spec.props_of i r)).
Proof.
  intros Hkeep Hrow. split; [|split].
  - unfold ExportGeojson.sanitize_props, Py.row_get.
    rewrite (comprehension_ext row1 row2 _ Hkeep). by rewrite Hrow.
  - unfold ExportGeojson.sanitize_props, ExportGeojson.keep.
    cbn [ExportGeojson.comprehension].
    repeat (destruct (Py.text row1 _); cbn [Py.rbind]; [|done]).
    intros out [= <-]. reflexivity.
  - apply ExportFacts.sanitize_props_csv.
Qed.

(** Two rows that differ in a telephone column only. *)
Lemma C9_sanitize_props_witness :
  let row1 : gmap string Py.value :=
    {[ "Adres" := Py.VStr "Domplein 1"; "Telefoon" := Py.VStr "06-12345678";
       "__row" := Py.VInt 4 ]} in
  let row2 : gmap string Py.value :=
    {[ "Adres" := Py.VStr "Domplein 1"; "Telefoon" := Py.VStr "030-7654321";
       "__row" := Py.VInt 4 ]} in
  row1 ≠ row2
  ∧ ExportGeojson.sanitize_props row1 = ExportGeojson.sanitize_props row2.
Proof.
  intros row1 row2. split.
  - intros Heq. assert (Ht : row1 !! "Telefoon" = row2 !! "Telefoon") by by rewrite Heq.
    vm_compute in Ht. discriminate.
  - refine (proj1 (C9_sanitize_props row1 row2 _ _)).
    + intros k Hk. unfold ExportGeojson.keep in Hk. simpl in Hk.
      repeat (apply elem_of_cons in Hk as [->|Hk]; [vm_compute; reflexivity|]).
      by apply elem_of_nil in Hk.
    + vm_compute; reflexivity.
Defined.

(** ** The GeoJSON document *)

(** C7. Whatever export_geojson.py hands to [json.dump] is one document: an
    object of type "FeatureCollection" whose features follow the order of the
    CSV lines, one for each line that passes the locality test and whose
    request returns a pair; each is a "Feature" with a "Point" geometry
    holding that pair as [lon, lat] and with the sanitized properties of the
    line, among them its zero-based number under "row".  The document is
    written, and the run completes, exactly when the directory of the output
    path can be created and the file opened. *)
Theorem C7_feature_collection (E : Py.env)
    (csv : list (gmap string (option string))) (out_path : string) :
  let features :=
    omap id
      (imap (λ i r,
               (λ c : Qc * Qc,
                  Py.VDict
                    [ ("type", Py.VStr "Feature");
                      ("geometry",
                       Py.VDict [ ("type", Py.VStr "Point");
                                  ("coordinates",
                                   Py.VList [Py.VFloat c.1; Py.VFloat c.2]) ]);
                      ("properties", Py.VDict (Spec.props_of i r)) ])
               <$> Spec.resolved E i r)
         csv) in
  let document := Py.VDict [ ("type", Py.VStr "FeatureCollection");
                             ("features", Py.VList features) ] in
  let run := ExportGeojson.export E csv out_path [] in
  (∀ doc, doc ∈ Spec.dumps run.1 → doc = document)
  ∧ (Spec.writable E out_path = Py.Ok tt →
     run.2 = Py.Ok tt ∧ Spec.dumps run.1 = [document])
  ∧ (run.2 = Py.Ok tt →
     Spec.writable E out_path = Py.Ok tt ∧ Spec.dumps run.1 = [document])
  ∧ (∀ i r, Py.items_get "row" (Spec.props_of i r)
            = Some (Py.VInt (Z.of_nat i))
            ∧ ExportGeojson.sanitize_props
                (ExportGeojson.with_row i (Py.cell <$> r))
              = Py.Ok (Spec.props_of i r))
  ∧ (∀ i r c, Spec.resolved E i r = Some c →
              ExportGeojson.route_of (ExportGeojson.with_row i (Py.cell <$> r))
              = Py.Ok (ExportGeojson.Lookup (Spec.full_address r))
              ∧ ExportGeojson.geocode E i (Spec.full_address r)
                = Py.Ok (Some c)).
Proof.
  intros features document run.
  assert (Hrun : run = match Spec.writable E out_path with
                       | Py.Ok _ =>
                           (concat (imap (Spec.turn_events E) csv)
                              ++ [ Py.JsonDump out_path document;
                                   Py.Stdout (Py.Wrote (length features) out_path) ],
                            Py.Ok tt)
                       | Py.Raise e =>
                           (concat (imap (Spec.turn_events E) csv), Py.Raise e)
                       end).
  { subst run. rewrite ExportFacts.export_csv. reflexivity. }
  rewrite Hrun. clear Hrun run.
  assert (Hdumped : Spec.dumps
            (concat (imap (Spec.turn_events E) csv)
               ++ [ Py.JsonDump out_path document;
                    Py.Stdout (Py.Wrote (length features) out_path) ])
            = [document]).
  { by rewrite PyFacts.dumps_app, ExportFacts.dumps_export. }
  split; [|split; [|split; [|split]]].
  - intros doc. destruct (Spec.writable E out_path) as [[]|e]; cbn [fst].
    + rewrite Hdumped. by intros ->%list_elem_of_singleton.
    + rewrite ExportFacts.dumps_export. by intros ?%elem_of_nil.
  - intros ->. by split.
  - destruct (Spec.writable E out_path) as [[]|e]; [by split|done].
  - intros i r. split; [reflexivity|apply ExportFacts.sanitize_props_csv].
  - intros i r c. unfold Spec.resolved. rewrite ExportFacts.route_of_csv.
    fold (Spec.other_city_b r). destruct (Spec.other_city_b r); [done|].
    destruct (ExportGeojson.geocode E i (Spec.full_address r)) as [[c'|]|];
      [|done..].
    by intros [= <-].
Qed.

(** A run on the Domplein line with an output path under data/ completes and
    writes the collection with its one feature. *)
Lemma C7_feature_collection_witness :
  Spec.writable Examples.knows_domplein "data/duos_points.geojson" = Py.Ok tt
  ∧ Spec.dumps
      (ExportGeojson.export Examples.knows_domplein [Examples.domplein]
         "data/duos_points.geojson" []).1
    = [ Py.VDict
          [ ("type", Py.VStr "FeatureCollection");
            ("features",
             Py.VList [Spec.point Examples.dom_tower 0 Examples.domplein]) ] ].
Proof.
  assert (H : Spec.writable Examples.knows_domplein "data/duos_points.geojson"
              = Py.Ok tt) by (vm_compute; reflexivity).
  split; [exact H|].
  rewrite (proj2 (proj1 (proj2
             (C7_feature_collection Examples.knows_domplein [Examples.domplein]
                "data/duos_points.geojson")) H)).
  vm_compute. reflexivity.
Defined.

(** C3 (export_geojson.py, on a line whose street is blank). The line of
    [Examples.no_street] has no street; the program still requests
    "3511 AB, Utrecht, Nederland" and writes a feature for the line. *)
Theorem C3_blank_street_is_geocoded :
  let run := ExportGeojson.export Examples.always_dom [Examples.no_street]
               "data/duos_points.geojson" [] in
  Py.strip (Spec.field Examples.no_street "Adres") = ""
  ∧ run.2 = Py.Ok tt
  ∧ Spec.calls run.1 = ["3511 AB, Utrecht, Nederland"]
  ∧ Spec.dumps run.1
    = [ Py.VDict [ ("type", Py.VStr "FeatureCollection");
                   ("features",
                    Py.VList [Spec.point Examples.dom_tower 0
                                Examples.no_street]) ] ].
Proof. vm_compute. done. Qed.

(** In generate_map.py a line without a street yields no address, hence no
    request. *)
Lemma blank_street_not_kept (r : gmap string (option string)) :
  Py.strip (Spec.field r "Adres") = "" → Spec.kept r = None.
Proof. intros Ha. unfold Spec.kept. by rewrite Ha. Qed.

(** ** The pause between requests *)

(** C5 (export_geojson.py, after a request without result). The first line
    is unknown to the service, the second is known: the second request is
    issued right after the diagnostic of the first, with no pause between
    them. *)
Theorem C5_no_pause_after_failure :
  let unknown : gmap string (option string) :=
    {[ "Adres" := Some "Nergensstraat 1"; "Stad" := Some "Utrecht" ]} in
  let tr := (ExportGeojson.export Examples.knows_domplein
               [unknown; Examples.domplein] "duos_points.geojson" []).1 in
  take 4 tr
  = [ Py.Geocode "Nergensstraat 1, Utrecht, Nederland";
      Py.Stderr (Py.NoResult "Nergensstraat 1, Utrecht, Nederland");
      Py.Geocode Examples.domplein_address;
      Py.Sleep ]
  ∧ Spec.paced false tr = false.
Proof. vm_compute. done. Qed.

(** ** One request per address *)

(** C8, as stated, fails in export_geojson.py: two lines of one household
    are both geocoded, for the same address. *)
Lemma C8_export_repeats_requests :
  ¬ NoDup (Spec.calls
             (ExportGeojson.export Examples.knows_domplein
                [Examples.domplein; Examples.housemate]
                "duos_points.geojson" []).1).
Proof.
  assert (Hc : Spec.calls
                 (ExportGeojson.export Examples.knows_domplein
                    [Examples.domplein; Examples.housemate]
                    "duos_points.geojson" []).1
               = [Examples.domplein_address; Examples.domplein_address])
    by (vm_compute; reflexivity).
  rewrite Hc. intros [Hin _]%NoDup_cons. apply Hin. by left.
Qed.

Lemma kept_sublist (csv : list (gmap string (option string))) :
  omap Spec.kept csv
  `sublist_of` omap (λ r, if Spec.other_city_b r then None
                          else Some (Spec.full_address r)) csv.
Proof.
  induction csv as [|r csv IH]; [done|]. simpl.
  unfold Spec.kept at 1.
  destruct (negb (Py.nonempty (Py.strip (Spec.field r "Adres")))).
  - destruct (Spec.other_city_b r); [done|]. by apply sublist_cons.
  - destruct (Spec.other_city_b r); [done|]. by apply sublist_skip.
Qed.

(** C8, amended. generate_map.py removes duplicate addresses before
    geocoding: in any run no two requests are for equal addresses.
    export_geojson.py does not: every line that has a street and passes the
    locality test gets its own request, in the order of the lines, also when
    its address is that of an earlier line. *)
Theorem C8_requests (E : Py.env) :
  (∀ token csv_path file,
     NoDup (Spec.calls (GenerateMap.main E token csv_path file []).1))
  ∧ (∀ csv out_path,
       omap Spec.kept csv
       `sublist_of` Spec.calls (ExportGeojson.export E csv out_path []).1).
Proof.
  split.
  - intros token csv_path [csv|].
    + destruct (MapFacts.main_calls E token csv_path csv) as [n ->].
      eapply sublist_NoDup; [|apply sublist_take].
      rewrite DedupFacts.dedup_first_seen. apply DedupFacts.NoDup_first_seen.
    + unfold GenerateMap.main. destruct (negb _); simpl; apply NoDup_nil_2.
  - intros csv out_path. rewrite ExportFacts.calls_run. apply kept_sublist.
Qed.

(** ** Failures of single requests *)

(** In generate_map.py a request that raises is reported and skipped, and
    the loop goes on after its pause. *)
Lemma lookup_survives_failure (E : Py.env) coords idx addr e tr :
  Py.net E idx addr = Py.Fails e →
  GenerateMap.lookup E coords (idx, addr) tr
  = (tr ++ [ Py.Geocode addr; Py.Stderr (Py.GeocodingError addr e);
             Py.Stderr (Py.WarningNoResult addr); Py.Sleep ],
     Py.Ok coords).
Proof.
  intros Hnet. unfold GenerateMap.lookup, GenerateMap.geocode_address.
  rewrite Hnet. unfold Py.bind, Py.emit, Py.ret. simpl.
  by rewrite <- !app_assoc.
Qed.

(** C1 (generate_map.py, on an answer whose centre has one number). The
    conversion of the centre happens after the guarded call, so the error
    leaves [main]: the second address is never requested and nothing is
    drawn.  export_geojson.py, which converts inside the guarded call, handles
    the same answers and completes. *)
Theorem C1_malformed_center_aborts :
  GenerateMap.main Examples.short_center (Some "pk.test") "data/duos.csv"
    (Some [Examples.domplein; Examples.neude]) []
  = ([ Py.Stdout (Py.Found 2); Py.Geocode Examples.domplein_address ],
     Py.Raise Py.IndexError)
  ∧ ExportGeojson.main Examples.short_center (Some "pk.test") "data/duos.csv"
      (Some [Examples.domplein; Examples.neude]) "data/duos_points.geojson" []
    = ([ Py.Geocode Examples.domplein_address;
         Py.Stderr (Py.GeocodingFailed Examples.domplein_address Py.IndexError);
         Py.Stderr (Py.NoResult Examples.domplein_address);
         Py.Geocode "Neude 11, Utrecht, Nederland";
         Py.Stderr (Py.GeocodingFailed "Neude 11, Utrecht, Nederland"
                      Py.IndexError);
         Py.Stderr (Py.NoResult "Neude 11, Utrecht, Nederland");
         Py.JsonDump "data/duos_points.geojson"
           (Py.VDict [ ("type", Py.VStr "FeatureCollection");
                       ("features", Py.VList []) ]);
         Py.Stdout (Py.Wrote 0 "data/duos_points.geojson") ],
       Py.Ok tt).
Proof. vm_compute. done. Qed.

(** ** The batches of the static map *)

(** C2. When no download fails, [main] downloads nothing for zero
    coordinates; one map with all the coordinates when the request for all of
    them is shorter than 7800 characters; and otherwise one map per chunk,
    where the chunks are the coordinates cut in order into [ceil(N / 100)]
    pieces of 100, the last one holding [N mod 100] of them (100 if that is
    zero). *)
Theorem C2_batch_planner (E : Py.env) (token : string)
    (coords : list (Qc * Qc)) :
  (∀ url out, Py.store E url out = Py.Ok tt) →
  let jobs := Spec.downloads (GenerateMap.render E token coords []).1 in
  let n := length coords in
  (coords = [] → jobs = [])
  ∧ (coords ≠ [] →
     (Z.of_nat (String.length (Spec.url_of E token coords)) < 7800)%Z →
     jobs = [(Spec.url_of E token coords, "utrecht_markers.png")])
  ∧ (coords ≠ [] →
     (7800 ≤ Z.of_nat (String.length (Spec.url_of E token coords)))%Z →
     ∃ chunks,
       jobs = imap (λ j sub, (Spec.url_of E token sub, Spec.chunk_file (1 + j)))
                chunks
       ∧ concat chunks = coords
       ∧ length chunks = Spec.ceil_div n 100
       ∧ ∀ j sub, chunks !! j = Some sub →
           length sub = if decide (S j < length chunks) then 100
                        else if decide (n mod 100 = 0) then 100
                             else n mod 100).
Proof.
  intros Hok jobs n. subst jobs. split; [by intros ->|]. split.
  - intros Hne Hshort. destruct coords as [|c coords]; [done|].
    unfold GenerateMap.render.
    fold (Spec.url_of E token (c :: coords)).
    apply Z.ltb_lt in Hshort. rewrite Hshort.
    unfold GenerateMap.download, Py.bind, Py.emit, Py.lift. rewrite Hok.
    reflexivity.
  - intros Hne Hlong. destruct coords as [|c coords]; [done|].
    unfold GenerateMap.render.
    fold (Spec.url_of E token (c :: coords)).
    apply Z.ltb_ge in Hlong. rewrite Hlong.
    destruct (MapFacts.chunk_spec (c :: coords) 100)
      as (chunks & Hchunk & Hcat & Hlen & Hsub); [lia|].
    exists chunks. fold n in Hlen, Hsub.
    split; [|split; [done|split; [done|]]].
    + unfold Py.bind at 1 2. unfold Py.emit at 1, Py.lift.
      rewrite Hchunk. unfold Py.bind.
      rewrite (MapFacts.fetch_chunks_ok E token chunks Hok 1).
      unfold Py.emit. cbn [fst].
      rewrite !PyFacts.downloads_app, MapFacts.downloads_chunks.
      simpl. by rewrite app_nil_r.
    + intros j sub Hj. rewrite (Hsub j sub Hj).
      assert (Hjlt : j < length chunks) by (by eapply lookup_lt_Some).
      rewrite Hlen in *. unfold Spec.ceil_div in *.
      pose proof (Nat.div_mod_eq (n + 100 - 1) 100).
      pose proof (Nat.mod_upper_bound (n + 100 - 1) 100).
      pose proof (Nat.div_mod_eq n 100).
      pose proof (Nat.mod_upper_bound n 100).
      repeat case_decide; lia.
Qed.

(** 250 coordinates make a request of more than 7800 characters, and are
    drawn on three maps of 100, 100 and 50 markers. *)
Lemma C2_batch_planner_witness :
  let E := Examples.world (λ _ _, Examples.nothing) in
  ∃ chunks,
    Spec.downloads (GenerateMap.render E "pk.test" Examples.line_250 []).1
    = imap (λ j sub, (Spec.url_of E "pk.test" sub, Spec.chunk_file (1 + j)))
        chunks
    ∧ concat chunks = Examples.line_250
    ∧ length chunks = 3.
Proof.
  intros E.
  assert (Hok : ∀ url out, Py.store E url out = Py.Ok tt) by done.
  assert (Hne : Examples.line_250 ≠ []) by done.
  assert (Hlong : (7800 ≤ Z.of_nat (String.length
                             (Spec.url_of E "pk.test" Examples.line_250)))%Z).
  { vm_compute. discriminate. }
  destruct (proj2 (proj2 (C2_batch_planner E "pk.test" Examples.line_250 Hok))
              Hne Hlong) as (chunks & Hjobs & Hcat & Hlen & _).
  exists chunks. split; [exact Hjobs|]. split; [exact Hcat|].
  rewrite Hlen. reflexivity.
Defined.

(** * Further properties of the two programs *)

(** ** Start-up and reading *)



(** X3. On the rows the reader yields from a CSV file that is read without
    error, the loops of [read_addresses] raise on no row, whatever columns it
    has or lacks, and print nothing.  They return, without repetition,
    exactly the addresses of the rows that have a street and pass the
    locality test, and each of them has a non-empty part before
    ", Utrecht, Nederland". *)
Theorem X3_read_addresses (csv : list (gmap string (option string)))
    (tr : list Py.event) :
  ∃ addresses,
    GenerateMap.read_addresses csv tr = (tr, Py.Ok addresses)
    ∧ NoDup addresses
    ∧ (∀ a, a ∈ addresses ↔ ∃ r, r ∈ csv ∧ Spec.kept r = Some a)
    ∧ Forall (λ a, ∃ pre, a = pre +:+ ", Utrecht, Nederland" ∧ pre ≠ "")
        addresses.
Proof.
  exists (Py.dedup (omap Spec.kept csv)).
  split; [apply MapFacts.read_addresses_csv|].
  rewrite DedupFacts.dedup_first_seen.
  split; [apply DedupFacts.NoDup_first_seen|].
  assert (Hmem : ∀ a, a ∈ Spec.first_seen (omap Spec.kept csv)
                      ↔ ∃ r, r ∈ csv ∧ Spec.kept r = Some a).
  { intros a. rewrite DedupFacts.elem_of_first_seen, list_elem_of_omap. done. }
  split; [exact Hmem|].
  apply Forall_forall. intros a [r [_ Hr]]%Hmem.
  unfold Spec.kept in Hr.
  destruct (Py.nonempty (Py.strip (Spec.field r "Adres"))) eqn:Ha;
    simpl in Hr; [|done].
  destruct (Spec.other_city_b r); [done|]. injection Hr as <-.
  unfold Spec.full_address. simpl. rewrite Ha.
  destruct (Py.strip (Spec.field r "Adres")) as [|c street]; [done|].
  destruct (Py.nonempty (Py.strip (Spec.field r "Postcode"))).
  - exists (String c street +:+ ", " +:+ Py.strip (Spec.field r "Postcode")).
    split; [|done]. simpl. by rewrite !PyFacts.append_assoc.
  - exists (String c street). split; [|done]. reflexivity.
Qed.

(** X4. The two programs build the same address: a line from which
    generate_map.py keeps an address is sent by export_geojson.py to the
    service with that very address. *)
Theorem X4_same_address (i : nat) (r : gmap string (option string))
    (a : string) :
  Spec.kept r = Some a →
  GenerateMap.row_address (Py.cell <$> r) = Py.Ok (GenerateMap.Address a)
  ∧ ExportGeojson.route_of (ExportGeojson.with_row i (Py.cell <$> r))
    = Py.Ok (ExportGeojson.Lookup a).
Proof.
  intros Hk. rewrite MapFacts.row_address_csv, ExportFacts.route_of_csv.
  unfold Spec.kept in Hk. fold (Spec.other_city_b r).
  destruct (negb _); [done|].
  destruct (Spec.other_city_b r); [done|]. by injection Hk as <-.
Qed.

Lemma X4_same_address_witness :
  Spec.kept Examples.housemate = Some Examples.domplein_address
  ∧ ExportGeojson.route_of
      (ExportGeojson.with_row 7 (Py.cell <$> Examples.housemate))
    = Py.Ok (ExportGeojson.Lookup Examples.domplein_address).
Proof.
  assert (H : Spec.kept Examples.housemate = Some Examples.domplein_address)
    by (vm_compute; reflexivity).
  split; [exact H|].
  exact (proj2 (X4_same_address 7 Examples.housemate _ H)).
Defined.

(** ** The two geocoders *)

(** X5. Whenever [geocode] of export_geojson.py returns for a request, the
    turn of [geocode_all] for the same request completes too and adds the
    same coordinate, if any, to its list; it reports the address when there
    is none, and takes its pause. *)
Theorem X5_geocoders_agree (E : Py.env) (i : nat) (a : string)
    (found : option (Qc * Qc)) (coords : list (Qc * Qc))
    (tr : list Py.event) :
  ExportGeojson.geocode E i a = Py.Ok found →
  GenerateMap.lookup E coords (i, a) tr
  = (tr ++ [Py.Geocode a]
        ++ match found with
           | Some _ => []
           | None => [Py.Stderr (Py.WarningNoResult a)]
           end
        ++ [Py.Sleep],
     Py.Ok (coords ++ option_list found)).
Proof.
  unfold ExportGeojson.geocode, GenerateMap.lookup, GenerateMap.geocode_address.
  unfold Py.bind, Py.emit, Py.ret, Py.lift.
  destruct (Py.net E i a) as [e|data]; [done|].
  destruct (Py.get data "features") as [features|]; [|done]. simpl.
  destruct (Py.truthy (Py.or_else features (Py.VList []))); simpl.
  - destruct (Py.subscript (Py.or_else features (Py.VList [])) 0) as [f0|];
      [|done]. simpl.
    destruct (Py.get f0 "center") as [c|]; [|done]. simpl.
    destruct (Py.truthy c); simpl.
    + destruct (Py.subscript c 0) as [c0|]; [|done]. simpl.
      destruct (Py.float E c0) as [lon|]; [|done]. simpl.
      destruct (Py.subscript c 1) as [c1|]; [|done]. simpl.
      destruct (Py.float E c1) as [lat|]; [|done]. simpl.
      intros [= <-]. simpl. by rewrite <- !app_assoc.
    + intros [= <-]. simpl. by rewrite <- !app_assoc, app_nil_r.
  - intros [= <-]. simpl. by rewrite <- !app_assoc, app_nil_r.
Qed.

Lemma X5_geocoders_agree_witness :
  ExportGeojson.geocode Examples.knows_domplein 1 Examples.domplein_address
  = Py.Ok (Some Examples.dom_tower)
  ∧ GenerateMap.lookup Examples.knows_domplein []
      (1, Examples.domplein_address) []
    = ([Py.Geocode Examples.domplein_address; Py.Sleep],
       Py.Ok [Examples.dom_tower]).
Proof.
  assert (H : ExportGeojson.geocode Examples.knows_domplein 1
                Examples.domplein_address = Py.Ok (Some Examples.dom_tower))
    by (vm_compute; reflexivity).
  split; [exact H|].
  exact (X5_geocoders_agree Examples.knows_domplein 1 _ _ [] [] H).
Defined.

(** X6. [geocode] reads the first candidate only, and of its centre the
    first two numbers only: further candidates, further entries of the centre
    and every other key of the answer are ignored.  An answer without
    candidates, or whose first candidate has no centre, gives no coordinate
    and no error. *)
Theorem X6_first_candidate (E : Py.env) (i : nat) (a : string)
    (d d0 : list (string * Py.value)) (rest extra : list Py.value)
    (lon lat : Qc) :
  Py.net E i a = Py.Body (Py.VDict d) →
  Py.items_get "features" d = Some (Py.VList (Py.VDict d0 :: rest)) →
  (Py.items_get "center" d0
   = Some (Py.VList (Py.VFloat lon :: Py.VFloat lat :: extra)) →
   ExportGeojson.geocode E i a = Py.Ok (Some (lon, lat)))
  ∧ (Py.items_get "center" d0 = None →
     ExportGeojson.geocode E i a = Py.Ok None).
Proof.
  intros Hnet Hf. unfold ExportGeojson.geocode. rewrite Hnet. simpl.
  rewrite Hf. simpl. split; intros Hc; by rewrite Hc.
Qed.

(** The service names two candidates and a centre with an altitude. *)
Lemma X6_first_candidate_witness :
  let answer :=
    [ ("attribution", Py.VStr "(c) Mapbox");
      ("features",
       Py.VList [ Py.VDict [ ("id", Py.VStr "address.1");
                             ("center",
                              Py.VList [ Py.VFloat Examples.dom_tower.1;
                                         Py.VFloat Examples.dom_tower.2;
                                         Py.VInt 112 ]) ];
                  Py.VDict [ ("center", Py.VList [Py.VInt 0; Py.VInt 0]) ] ]) ] in
  let E := Examples.world (λ _ _, Py.Body (Py.VDict answer)) in
  ExportGeojson.geocode E 0 "Domplein 1" = Py.Ok (Some Examples.dom_tower).
Proof.
  intros answer E.
  exact (proj1 (X6_first_candidate E 0 "Domplein 1" answer _ _ _
                  Examples.dom_tower.1 Examples.dom_tower.2 eq_refl eq_refl)
           eq_refl).
Defined.

(** ** A whole pass of [geocode_all] *)

Lemma pauses_app tr1 tr2 :
  Spec.pauses (tr1 ++ tr2) = Spec.pauses tr1 ++ Spec.pauses tr2.
Proof. apply omap_app. Qed.

Lemma no_results_app tr1 tr2 :
  Spec.no_results (tr1 ++ tr2) = Spec.no_results tr1 ++ Spec.no_results tr2.
Proof. apply omap_app. Qed.

(** A turn that completes has asked once, paused once and added at most one
    coordinate. *)
Lemma lookup_completes (E : Py.env) coords idx addr tr tr' coords' :
  GenerateMap.lookup E coords (idx, addr) tr = (tr', Py.Ok coords') →
  Spec.calls tr' = Spec.calls tr ++ [addr]
  ∧ length (Spec.pauses tr') = S (length (Spec.pauses tr))
  ∧ length coords ≤ length coords' ≤ S (length coords).
Proof.
  unfold GenerateMap.lookup, Py.bind, Py.emit, Py.ret, Py.lift.
  assert (Hend : ∀ mid coords'',
    (tr ++ [Py.Geocode addr] ++ mid ++ [Py.Sleep], Py.Ok coords'')
      = (tr', @Py.Ok (list (Qc * Qc)) coords') →
    Spec.calls mid = [] → Spec.pauses mid = [] →
    length coords ≤ length coords'' ≤ S (length coords) →
    Spec.calls tr' = Spec.calls tr ++ [addr]
    ∧ length (Spec.pauses tr') = S (length (Spec.pauses tr))
    ∧ length coords ≤ length coords' ≤ S (length coords)).
  { intros mid coords'' [= <- <-] Hc Hp Hl.
    change (Py.Geocode addr :: mid ++ [Py.Sleep])
      with ([Py.Geocode addr] ++ mid ++ [Py.Sleep]).
    rewrite !PyFacts.calls_app, !pauses_app, Hc, Hp. simpl.
    rewrite !length_app. simpl. split; [done|]. split; lia. }
  destruct (GenerateMap.geocode_address E idx addr) as [c|e]; simpl.
  - destruct (Py.truthy c); simpl.
    + destruct (Py.subscript c 0) as [c0|]; simpl; [|done].
      destruct (Py.float E c0); simpl; [|done].
      destruct (Py.subscript c 1) as [c1|]; simpl; [|done].
      destruct (Py.float E c1); simpl; [|done].
      intros H. rewrite <- !app_assoc in H.
      eapply (Hend []); [exact H|done..|].
      rewrite length_app. simpl. lia.
    + intros H. rewrite <- !app_assoc in H.
      eapply (Hend [Py.Stderr (Py.WarningNoResult addr)]);
        [exact H|done..|lia].
  - intros H. rewrite <- !app_assoc in H.
    eapply (Hend [ Py.Stderr (Py.GeocodingError addr e);
                   Py.Stderr (Py.WarningNoResult addr) ]);
      [exact H|done..|lia].
Qed.

Lemma lookups_complete (E : Py.env) addresses : ∀ k coords tr tr' coords',
  Py.for_each (GenerateMap.lookup E) coords (Py.enumerate k addresses) tr
  = (tr', Py.Ok coords') →
  Spec.calls tr' = Spec.calls tr ++ addresses
  ∧ length (Spec.pauses tr') = length (Spec.pauses tr) + length addresses
  ∧ length coords' ≤ length coords + length addresses.
Proof.
  induction addresses as [|addr addresses IH]; intros k coords tr tr' coords'.
  - intros [= <- <-]. rewrite app_nil_r. simpl. split; [done|]. lia.
  - rewrite MapFacts.enumerate_cons, PyFacts.for_each_cons.
    destruct (GenerateMap.lookup E coords (k, addr) tr) as [tr1 [coords1|e]]
      eqn:Hturn; [|done].
    intros Hrest.
    destruct (lookup_completes _ _ _ _ _ _ _ Hturn) as (Hc & Hp & Hl).
    destruct (IH _ _ _ _ _ Hrest) as (Hc' & Hp' & Hl').
    rewrite Hc', Hc, Hp', Hp, <- app_assoc. simpl. split; [done|]. lia.
Qed.

(** X7. When [geocode_all] returns, it has asked for every address exactly
    once, in order, and paused once after each; the coordinates it returns
    are free of repetitions and no more than the addresses. *)
Theorem X7_geocode_all_completes (E : Py.env) (addresses : list string)
    (coords : list (Qc * Qc)) :
  (GenerateMap.geocode_all E addresses []).2 = Py.Ok coords →
  Spec.calls (GenerateMap.geocode_all E addresses []).1 = addresses
  ∧ length (Spec.pauses (GenerateMap.geocode_all E addresses []).1)
    = length addresses
  ∧ NoDup coords
  ∧ length coords ≤ length addresses.
Proof.
  unfold GenerateMap.geocode_all, Py.bind.
  destruct (Py.for_each (GenerateMap.lookup E) [] (Py.enumerate 1 addresses) [])
    as [tr' [found|e]] eqn:Hloop; [|done].
  simpl. intros [= <-].
  destruct (lookups_complete _ _ _ _ _ _ _ Hloop) as (Hc & Hp & Hl).
  split; [done|]. split; [done|].
  rewrite DedupFacts.dedup_first_seen.
  split; [apply DedupFacts.NoDup_first_seen|].
  etrans; [|exact Hl].
  apply submseteq_length, NoDup_submseteq;
    [apply DedupFacts.NoDup_first_seen|].
  intros x. by rewrite DedupFacts.elem_of_first_seen.
Qed.

Lemma X7_geocode_all_completes_witness :
  let addresses := [Examples.domplein_address; "Neude 11, Utrecht, Nederland"] in
  (GenerateMap.geocode_all Examples.knows_domplein addresses []).2
  = Py.Ok [Examples.dom_tower]
  ∧ Spec.calls (GenerateMap.geocode_all Examples.knows_domplein addresses []).1
    = addresses.
Proof.
  intros addresses.
  assert (H : (GenerateMap.geocode_all Examples.knows_domplein addresses []).2
              = Py.Ok [Examples.dom_tower]) by (vm_compute; reflexivity).
  split; [exact H|].
  exact (proj1 (X7_geocode_all_completes Examples.knows_domplein addresses _ H)).
Defined.

(** A turn whose request brings no centre leaves the coordinates as they
    were. *)
Lemma lookup_unresolved (E : Py.env) coords idx addr tr :
  (∀ c, GenerateMap.geocode_address E idx addr = Py.Ok c → Py.truthy c = false) →
  ∃ tr', GenerateMap.lookup E coords (idx, addr) tr = (tr', Py.Ok coords)
         ∧ Spec.calls tr' = Spec.calls tr ++ [addr]
         ∧ Spec.downloads tr' = Spec.downloads tr.
Proof.
  intros Hno. unfold GenerateMap.lookup, Py.bind, Py.emit, Py.ret, Py.lift.
  destruct (GenerateMap.geocode_address E idx addr) as [c|e]; simpl.
  - rewrite (Hno c eq_refl). simpl. eexists. split; [done|].
    rewrite !PyFacts.calls_app, !PyFacts.downloads_app. simpl.
    by rewrite !app_nil_r.
  - eexists. split; [done|].
    rewrite !PyFacts.calls_app, !PyFacts.downloads_app. simpl.
    by rewrite !app_nil_r.
Qed.

Lemma lookups_unresolved (E : Py.env) addresses :
  (∀ i a c, GenerateMap.geocode_address E i a = Py.Ok c → Py.truthy c = false) →
  ∀ k coords tr,
    ∃ tr', Py.for_each (GenerateMap.lookup E) coords
             (Py.enumerate k addresses) tr = (tr', Py.Ok coords)
           ∧ Spec.calls tr' = Spec.calls tr ++ addresses
           ∧ Spec.downloads tr' = Spec.downloads tr.
Proof.
  intros Hno. induction addresses as [|addr addresses IH]; intros k coords tr.
  - exists tr. by rewrite app_nil_r.
  - rewrite MapFacts.enumerate_cons, PyFacts.for_each_cons.
    destruct (lookup_unresolved E coords k addr tr (Hno k addr))
      as (tr1 & -> & Hc & Hd).
    destruct (IH (S k) coords tr1) as (tr' & -> & Hc' & Hd').
    exists tr'. split; [done|].
    rewrite Hc', Hc, Hd', Hd, <- app_assoc. done.
Qed.

(** X8. When no request brings a centre (the service fails, knows no
    candidate, or names one without centre), [main] of generate_map.py still
    asks once for every distinct address, then leaves with status 0 without
    downloading anything. *)
Theorem X8_nothing_resolved (E : Py.env) (token csv_path : string)
    (csv : list (gmap string (option string))) :
  token ≠ "" →
  (∀ i a c, GenerateMap.geocode_address E i a = Py.Ok c → Py.truthy c = false) →
  let run := GenerateMap.main E (Some token) csv_path (Some csv) [] in
  run.2 = Py.Raise (Py.SystemExit 0)
  ∧ Spec.calls run.1 = Py.dedup (omap Spec.kept csv)
  ∧ Spec.downloads run.1 = [].
Proof.
  intros Htoken Hno run.
  assert (Hrun : ∃ tr, run = (tr, Py.Raise (Py.SystemExit 0))
                       ∧ Spec.calls tr = Py.dedup (omap Spec.kept csv)
                       ∧ Spec.downloads tr = []).
  { subst run. unfold GenerateMap.main.
    destruct token as [|ch token]; [done|].
    cbn [default from_option id Py.nonempty negb].
    unfold Py.bind at 1. rewrite MapFacts.read_addresses_csv.
    destruct (Py.dedup (omap Spec.kept csv)) as [|a addresses].
    { by eexists. }
    unfold Py.bind at 1 2 3. unfold Py.emit at 1.
    unfold GenerateMap.geocode_all, Py.bind at 1.
    destruct (lookups_unresolved E (a :: addresses) Hno 1 []
                ([] ++ [Py.Stdout (Py.Found (length (a :: addresses)))]))
      as (tr' & -> & Hc & Hd).
    unfold Py.ret, Py.emit. simpl. eexists. split; [done|].
    rewrite !PyFacts.calls_app, !PyFacts.downloads_app, Hc, Hd. simpl. by rewrite !app_nil_r. }
  destruct Hrun as (tr & -> & Hc & Hd). done.
Qed.

(** With the service down, two households are asked for and nothing is
    drawn. *)
Lemma X8_nothing_resolved_witness :
  let run := GenerateMap.main Examples.offline (Some "pk.test") "data/duos.csv"
               (Some [Examples.domplein; Examples.housemate; Examples.neude]) [] in
  run.2 = Py.Raise (Py.SystemExit 0)
  ∧ Spec.calls run.1
    = [Examples.domplein_address; "Neude 11, Utrecht, Nederland"].
Proof.
  assert (Htoken : "pk.test" ≠ "") by done.
  assert (Hno : ∀ i a c,
            GenerateMap.geocode_address Examples.offline i a = Py.Ok c →
            Py.truthy c = false) by done.
  destruct (X8_nothing_resolved Examples.offline "pk.test" "data/duos.csv"
              [Examples.domplein; Examples.housemate; Examples.neude]
              Htoken Hno) as (Hexit & Hcalls & _).
  split; [exact Hexit|]. rewrite Hcalls. vm_compute. reflexivity.
Defined.

(** ** Cutting into chunks *)

Lemma range_from_lookup stop step : ∀ fuel i k j,
  GenerateMap.range_from fuel i stop step !! k = Some j →
  j = i + k * step ∧ j < stop.
Proof.
  induction fuel as [|fuel IH]; intros i k j; [done|].
  simpl. destruct (i <? stop) eqn:Hi; [|done].
  apply Nat.ltb_lt in Hi. destruct k as [|k]; simpl.
  - intros [= <-]. lia.
  - intros [-> Hlt]%IH. lia.
Qed.

(** X9. [chunk] refuses the size 0 with a ValueError.  For a positive size
    [n] it cuts the list into [ceil(len / n)] chunks which, put together,
    give the list back; chunk number [k] is [xs[k*n : k*n + n]], so no chunk
    is empty and none is longer than [n].  The empty list gives no chunk. *)
Theorem X9_chunk {A} (xs : list A) (n : nat) :
  (n = 0 → GenerateMap.chunk xs n = Py.Raise Py.ValueError)
  ∧ (0 < n →
     ∃ cs, GenerateMap.chunk xs n = Py.Ok cs
           ∧ concat cs = xs
           ∧ length cs = Spec.ceil_div (length xs) n
           ∧ (xs = [] → cs = [])
           ∧ ∀ k sub, cs !! k = Some sub →
                      sub = take n (drop (k * n) xs)
                      ∧ 0 < length sub ≤ n).
Proof.
  split; [by intros ->|]. intros Hn.
  destruct (MapFacts.chunk_spec xs n Hn) as (cs & Hchunk & Hcat & Hlen & _).
  exists cs. do 3 (split; [done|]). split.
  - intros ->. simpl length in Hlen.
    rewrite (MapFacts.ceil_div_0 n Hn) in Hlen. by destruct cs.
  - intros k sub Hk. unfold GenerateMap.chunk, GenerateMap.range in Hchunk.
    destruct n as [|n]; [lia|]. simpl in Hchunk. injection Hchunk as <-.
    change (map ?f ?l) with (fmap (M:=list) f l) in Hk.
    rewrite list_lookup_fmap in Hk.
    destruct (GenerateMap.range_from (length xs) 0 (length xs) (S n) !! k)
      as [j|] eqn:Hj; [|done].
    apply range_from_lookup in Hj as [-> Hlt]. injection Hk as <-.
    unfold GenerateMap.slice. rewrite !Nat.add_0_l in *.
    replace (k * S n + S n - k * S n) with (S n) by lia.
    split; [done|]. rewrite length_take, length_drop. lia.
Qed.

Lemma X9_chunk_witness :
  ∃ cs, GenerateMap.chunk [1; 2; 3; 4; 5; 6; 7] 3 = Py.Ok cs
        ∧ cs = [[1; 2; 3]; [4; 5; 6]; [7]].
Proof.
  destruct (proj2 (X9_chunk [1; 2; 3; 4; 5; 6; 7] 3)) as (cs & Hcs & _);
    [lia|].
  exists cs. split; [exact Hcs|].
  assert (Hc : GenerateMap.chunk [1; 2; 3; 4; 5; 6; 7] 3
               = Py.Ok [[1; 2; 3]; [4; 5; 6]; [7]]) by reflexivity.
  rewrite Hc in Hcs. by injection Hcs.
Defined.

(** ** Downloads *)

(** X10. The split does not shorten a request that is too long with at most
    100 coordinates (a long token, long numbers): [main] then downloads the
    very request it measured as too long, as the only chunk, under the name
    of chunk 1. *)
Theorem X10_long_request_still_sent (E : Py.env) (token : string)
    (coords : list (Qc * Qc)) :
  (∀ url out, Py.store E url out = Py.Ok tt) →
  0 < length coords ≤ 100 →
  (7800 ≤ Z.of_nat (String.length (Spec.url_of E token coords)))%Z →
  Spec.downloads (GenerateMap.render E token coords []).1
  = [(Spec.url_of E token coords, Spec.chunk_file 1)].
Proof.
  intros Hok [Hpos Hle] Hlong. destruct coords as [|c coords]; [simpl in Hpos; lia|].
  unfold GenerateMap.render. fold (Spec.url_of E token (c :: coords)).
  apply Z.ltb_ge in Hlong. rewrite Hlong.
  destruct (MapFacts.chunk_spec (c :: coords) 100)
    as (chunks & Hchunk & Hcat & Hlen & _); [lia|].
  assert (Hone : chunks = [c :: coords]).
  { assert (Hl1 : length chunks = 1).
    { rewrite Hlen. unfold Spec.ceil_div.
      pose proof (Nat.div_mod_eq (length (c :: coords) + 100 - 1) 100).
      pose proof (Nat.mod_upper_bound (length (c :: coords) + 100 - 1) 100).
      lia. }
    destruct chunks as [|c0 [|c1 chunks]]; simpl in Hl1; try lia.
    simpl in Hcat. rewrite app_nil_r in Hcat. by rewrite Hcat. }
  subst chunks.
  unfold Py.bind at 1 2. unfold Py.emit at 1, Py.lift. rewrite Hchunk.
  unfold Py.bind.
  rewrite (MapFacts.fetch_chunks_ok E token [c :: coords] Hok 1).
  unfold Py.emit. cbn [fst].
  rewrite !PyFacts.downloads_app, MapFacts.downloads_chunks. reflexivity.
Qed.

Lemma X10_long_request_still_sent_witness :
  let E := Examples.world (λ _ _, Examples.nothing) in
  Spec.downloads
    (GenerateMap.render E Examples.long_token [Examples.dom_tower] []).1
  = [(Spec.url_of E Examples.long_token [Examples.dom_tower],
      "utrecht_markers_1.png")].
Proof.
  intros E.
  assert (Hok : ∀ url out, Py.store E url out = Py.Ok tt) by done.
  assert (Hlen : 0 < length [Examples.dom_tower] ≤ 100) by (simpl; lia).
  assert (Hlong : (7800 ≤ Z.of_nat (String.length
                     (Spec.url_of E Examples.long_token [Examples.dom_tower])))%Z).
  { vm_compute. discriminate. }
  exact (X10_long_request_still_sent E Examples.long_token
           [Examples.dom_tower] Hok Hlen Hlong).
Defined.

(** The loop over the chunks stops at the first download that fails. *)
Lemma fetch_chunks_fail (E : Py.env) token e sub post pre : ∀ k tr,
  (∀ j s, pre !! j = Some s →
          Py.store E (Spec.url_of E token s) (Spec.chunk_file (k + j)) = Py.Ok tt) →
  Py.store E (Spec.url_of E token sub) (Spec.chunk_file (k + length pre))
  = Py.Raise e →
  ∃ tr', Py.for_each (GenerateMap.fetch_chunk E token) tt
           (Py.enumerate k (pre ++ sub :: post)) tr = (tr', Py.Raise e)
         ∧ Spec.downloads tr'
           = Spec.downloads tr
             ++ imap (λ j s, (Spec.url_of E token s, Spec.chunk_file (k + j)))
                  (pre ++ [sub]).
Proof.
  induction pre as [|s pre IH]; intros k tr Hpre Hsub.
  - cbn [app]. rewrite MapFacts.enumerate_cons, PyFacts.for_each_cons,
      MapFacts.fetch_chunk_download.
    unfold GenerateMap.download, Py.bind, Py.emit, Py.lift.
    simpl in Hsub. rewrite Nat.add_0_r in Hsub.
    fold (Spec.url_of E token sub). fold (Spec.chunk_file k). rewrite Hsub.
    eexists. split; [done|].
    rewrite !PyFacts.downloads_app. simpl. by rewrite Nat.add_0_r, app_nil_r.
  - cbn [app]. rewrite MapFacts.enumerate_cons, PyFacts.for_each_cons,
      MapFacts.fetch_chunk_download.
    unfold GenerateMap.download, Py.bind, Py.emit, Py.lift.
    fold (Spec.url_of E token s). fold (Spec.chunk_file k).
    pose proof (Hpre 0 s eq_refl) as H0. rewrite Nat.add_0_r in H0.
    rewrite H0.
    destruct (IH (S k)
                ((tr ++ [Py.Stdout (Py.Downloading (Spec.chunk_file k))])
                 ++ [Py.Download (Spec.url_of E token s) (Spec.chunk_file k)]))
      as (tr' & -> & Hd).
    { intros j s' Hj. rewrite <- (Hpre (S j) s' Hj). f_equal. f_equal. lia. }
    { rewrite <- Hsub. f_equal. f_equal. simpl. lia. }
    exists tr'. split; [done|].
    rewrite (PyFacts.imap_cons_shift
               (λ n s, (Spec.url_of E token s, Spec.chunk_file n))).
    rewrite Hd, !PyFacts.downloads_app. simpl.
    by rewrite app_nil_r, <- app_assoc.
Qed.

(** X11. A download that fails on the chunked path ends the run with its
    error: the chunks before it have been downloaded, it has been attempted,
    and the chunks after it are never asked for. *)
Theorem X11_download_failure_stops (E : Py.env) (token : string)
    (coords : list (Qc * Qc)) (e : Py.exn)
    (pre post : list (list (Qc * Qc))) (sub : list (Qc * Qc)) :
  (7800 ≤ Z.of_nat (String.length (Spec.url_of E token coords)))%Z →
  GenerateMap.chunk coords 100 = Py.Ok (pre ++ sub :: post) →
  (∀ j s, pre !! j = Some s →
          Py.store E (Spec.url_of E token s) (Spec.chunk_file (1 + j)) = Py.Ok tt) →
  Py.store E (Spec.url_of E token sub) (Spec.chunk_file (1 + length pre))
  = Py.Raise e →
  (GenerateMap.render E token coords []).2 = Py.Raise e
  ∧ Spec.downloads (GenerateMap.render E token coords []).1
    = imap (λ j s, (Spec.url_of E token s, Spec.chunk_file (1 + j)))
        (pre ++ [sub]).
Proof.
  intros Hlong Hchunk Hpre Hsub.
  assert (Hrun : ∃ tr, GenerateMap.render E token coords [] = (tr, Py.Raise e)
                       ∧ Spec.downloads tr
                         = imap (λ j s, (Spec.url_of E token s,
                                         Spec.chunk_file (1 + j)))
                             (pre ++ [sub])).
  { destruct coords as [|c coords].
    { destruct pre; discriminate Hchunk. }
    unfold GenerateMap.render. fold (Spec.url_of E token (c :: coords)).
    apply Z.ltb_ge in Hlong. rewrite Hlong.
    unfold Py.bind at 1 2. unfold Py.emit at 1, Py.lift. rewrite Hchunk.
    unfold Py.bind.
    destruct (fetch_chunks_fail E token e sub post pre 1
                ([] ++ [Py.Stdout Py.UrlTooLong]) Hpre Hsub)
      as (tr' & -> & Hd).
    exists tr'. split; [done|]. by rewrite Hd. }
  destruct Hrun as (tr & -> & Hd). done.
Qed.

(** Of three chunks the second cannot be stored: two downloads, no third. *)
Lemma X11_download_failure_stops_witness :
  let run := GenerateMap.render Examples.disk_full "pk.test"
               Examples.line_250 [] in
  run.2 = Py.Raise (Py.URLError "no space left")
  ∧ length (Spec.downloads run.1) = 2.
Proof.
  intros run.
  assert (Hlong : (7800 ≤ Z.of_nat (String.length
            (Spec.url_of Examples.disk_full "pk.test" Examples.line_250)))%Z).
  { vm_compute. discriminate. }
  assert (Hchunk : GenerateMap.chunk Examples.line_250 100
            = Py.Ok ([take 100 Examples.line_250]
                     ++ take 100 (drop 100 Examples.line_250)
                     :: [drop 200 Examples.line_250])).
  { vm_compute. reflexivity. }
  assert (Hpre : ∀ j s, [take 100 Examples.line_250] !! j = Some s →
            Py.store Examples.disk_full
              (Spec.url_of Examples.disk_full "pk.test" s)
              (Spec.chunk_file (1 + j)) = Py.Ok tt).
  { intros [|j] s Hs; [reflexivity|discriminate Hs]. }
  assert (Hsub : Py.store Examples.disk_full
            (Spec.url_of Examples.disk_full "pk.test"
               (take 100 (drop 100 Examples.line_250)))
            (Spec.chunk_file (1 + length [take 100 Examples.line_250]))
            = Py.Raise (Py.URLError "no space left")) by reflexivity.
  destruct (X11_download_failure_stops Examples.disk_full "pk.test"
              Examples.line_250 _ _ _ _ Hlong Hchunk Hpre Hsub) as [Hres Hd].
  split; [exact Hres|]. subst run. rewrite Hd. reflexivity.
Defined.

(** ** Errors of [sanitize_props] *)

Lemma text_textual (row : gmap string Py.value) k :
  Py.text row k
  = if Spec.textual (Py.row_get row k)
    then Py.Ok (Spec.text_of (Py.row_get row k))
    else Py.Raise Py.AttributeError.
Proof.
  unfold Py.text, Py.or_else.
  destruct (Py.row_get row k) as [|[]|z|q|[|c s]|[|x l]|[|x d]]; simpl;
    try reflexivity.
  - by destruct (z =? 0)%Z.
  - by destruct (bool_decide (q = 0%Qc)).
Qed.

Lemma items_set_fresh k v d :
  Py.items_get k d = None → Py.items_set k v d = d ++ [(k, v)].
Proof.
  induction d as [|[k' v'] d IH]; simpl; [done|].
  destruct (String.eqb k k'); [done|]. intros H. by rewrite IH.
Qed.

Lemma items_get_snoc k k' v d :
  k ≠ k' → Py.items_get k (d ++ [(k', v)]) = Py.items_get k d.
Proof.
  intros Hne. induction d as [|[k'' v''] d IH]; simpl.
  - by apply String.eqb_neq in Hne as ->.
  - by rewrite IH.
Qed.

Lemma comprehension_textual (row : gmap string Py.value) pairs : ∀ out,
  NoDup pairs.*2 →
  (∀ k, k ∈ pairs.*2 → Py.items_get k out = None) →
  ExportGeojson.comprehension row pairs out
  = if forallb (λ kv, Spec.textual (Py.row_get row kv.1)) pairs
    then Py.Ok (out ++ map (λ kv, (kv.2, Py.VStr (Spec.text_of
                                                   (Py.row_get row kv.1))))
                        pairs)
    else Py.Raise Py.AttributeError.
Proof.
  induction pairs as [|[k v] pairs IH]; intros out Hnd Hfresh.
  - simpl. by rewrite app_nil_r.
  - simpl. rewrite text_textual.
    destruct (Spec.textual (Py.row_get row k)); [|done]. simpl.
    rewrite fmap_cons in Hnd. apply NoDup_cons in Hnd as [Hv Hnd].
    rewrite items_set_fresh by (apply Hfresh; left).
    rewrite IH; [|done|].
    + destruct (forallb _ pairs); [|done]. by rewrite <- app_assoc.
    + intros k' Hk'. rewrite items_get_snoc by (by intros ->).
      apply Hfresh. by right.
Qed.

(** X12. [sanitize_props] raises AttributeError exactly when an allow-listed
    column holds something true that is not a string.  Otherwise it returns
    the ten short names in their fixed order, each with the trimmed text of
    its column (the empty string for a column that is missing or empty),
    followed by "row" with whatever the row holds under "__row" (None when it
    holds nothing). *)
Theorem X12_sanitize_props_errors (row : gmap string Py.value) :
  ExportGeojson.sanitize_props row
  = if forallb (λ kv, Spec.textual (Py.row_get row kv.1)) ExportGeojson.keep
    then Py.Ok (map (λ kv, (kv.2, Py.VStr (Spec.text_of (Py.row_get row kv.1))))
                  ExportGeojson.keep
                ++ [("row", Py.row_get row "__row")])
    else Py.Raise Py.AttributeError.
Proof.
  unfold ExportGeojson.sanitize_props.
  rewrite comprehension_textual; [| |done].
  - destruct (forallb _ _); [|done]. reflexivity.
  - apply bool_decide_unpack with (dec := NoDup_dec _).
    vm_compute. reflexivity.
Qed.

Example sanitize_props_number :
  ExportGeojson.sanitize_props {[ "Postcode" := Py.VInt 3512 ]}
  = Py.Raise Py.AttributeError.
Proof. vm_compute. reflexivity. Qed.

(** ** The account of a run of export_geojson.py *)

Lemma turn_account (E : Py.env) i r :
  length (Spec.calls (Spec.turn_events E i r))
  = length (option_list (Spec.resolved E i r))
    + length (Spec.no_results (Spec.turn_events E i r))
  ∧ length (Spec.pauses (Spec.turn_events E i r))
    = length (option_list (Spec.resolved E i r))
  ∧ length (Spec.calls (Spec.turn_events E i r)) ≤ 1.
Proof.
  unfold Spec.turn_events, Spec.resolved.
  destruct (Spec.other_city_b r); [simpl; lia|].
  destruct (ExportGeojson.geocode E i (Spec.full_address r)) as [[c|]|e];
    simpl; lia.
Qed.

Lemma turns_account (E : Py.env) csv : ∀ k,
  let tr := concat (imap (λ j, Spec.turn_events E (k + j)) csv) in
  let features :=
    omap id (imap (λ j r, (λ c, Spec.point c (k + j) r)
                          <$> Spec.resolved E (k + j) r) csv) in
  length (Spec.calls tr) = length features + length (Spec.no_results tr)
  ∧ length (Spec.pauses tr) = length features
  ∧ length (Spec.calls tr) ≤ length csv.
Proof.
  induction csv as [|r csv IH]; intros k; [simpl; lia|].
  intros tr features. subst tr features.
  rewrite (PyFacts.imap_cons_shift (Spec.turn_events E)).
  rewrite (PyFacts.imap_cons_shift
             (λ n r, (λ c, Spec.point c n r) <$> Spec.resolved E n r)).
  cbn [concat]. rewrite PyFacts.calls_app, pauses_app, no_results_app.
  rewrite !length_app.
  destruct (turn_account E k r) as (H1 & H2 & H3).
  destruct (IH (S k)) as (H4 & H5 & H6).
  assert (Hf : length (omap id
                 (((λ c, Spec.point c k r) <$> Spec.resolved E k r)
                  :: imap (λ j r, (λ c, Spec.point c (S k + j) r)
                                  <$> Spec.resolved E (S k + j) r) csv))
               = length (option_list (Spec.resolved E k r))
                 + length (omap id
                     (imap (λ j r, (λ c, Spec.point c (S k + j) r)
                                   <$> Spec.resolved E (S k + j) r) csv))).
  { by destruct (Spec.resolved E k r). }
  rewrite Hf. change (length (r :: csv)) with (S (length csv)).
  cbv zeta in H4, H5, H6. lia.
Qed.

Lemma run_account (E : Py.env) csv :
  let tr := concat (imap (Spec.turn_events E) csv) in
  let features :=
    omap id (imap (λ i r, (λ c, Spec.point c i r) <$> Spec.resolved E i r) csv) in
  length (Spec.calls tr) = length features + length (Spec.no_results tr)
  ∧ length (Spec.pauses tr) = length features
  ∧ length (Spec.calls tr) ≤ length csv.
Proof. exact (turns_account E csv 0). Qed.

(** X13. In a run of export_geojson.py on the rows of the CSV file, every
    request ends either in a located row, which becomes a feature, or in a
    "No result" line; a pause is taken once per located row and never
    otherwise; and there is at most one request per row.  When the run
    completes, the located rows are the features of the one document it has
    written, and the number it prints last is their number. *)
Theorem X13_export_account (E : Py.env)
    (csv : list (gmap string (option string))) (out_path : string) :
  let run := ExportGeojson.export E csv out_path [] in
  let features :=
    omap id (imap (λ i r, (λ c, Spec.point c i r) <$> Spec.resolved E i r) csv) in
  length (Spec.calls run.1) = length features + length (Spec.no_results run.1)
  ∧ length (Spec.pauses run.1) = length features
  ∧ length (Spec.calls run.1) ≤ length csv
  ∧ (run.2 = Py.Ok tt →
     Spec.dumps run.1 = [ Py.VDict [ ("type", Py.VStr "FeatureCollection");
                                     ("features", Py.VList features) ] ]
     ∧ last run.1 = Some (Py.Stdout (Py.Wrote (length features) out_path))).
Proof.
  intros run features. subst run. rewrite ExportFacts.export_csv.
  fold features. destruct (run_account E csv) as (H1 & H2 & H3).
  fold features in H1, H2.
  destruct (Spec.writable E out_path) as [[]|e]; cbn [fst snd app].
  - rewrite !PyFacts.calls_app, !pauses_app, !no_results_app, !length_app.
    simpl. split; [lia|]. split; [lia|]. split; [lia|]. intros _. split.
    + rewrite PyFacts.dumps_app, ExportFacts.dumps_export. reflexivity.
    + change [?a; ?b] with ([a] ++ [b]). rewrite app_assoc. apply last_snoc.
  - split; [done|]. split; [done|]. split; [done|]. done.
Qed.

Lemma X13_export_account_witness :
  let run := ExportGeojson.export Examples.knows_domplein
               [Examples.domplein; Examples.neude]
               "data/duos_points.geojson" [] in
  run.2 = Py.Ok tt
  ∧ last run.1 = Some (Py.Stdout (Py.Wrote 1 "data/duos_points.geojson"))
  ∧ length (Spec.calls run.1) = 2.
Proof.
  intros run.
  assert (H : run.2 = Py.Ok tt) by (vm_compute; reflexivity).
  destruct (X13_export_account Examples.knows_domplein
              [Examples.domplein; Examples.neude] "data/duos_points.geojson")
    as (_ & _ & _ & Hdone).
  destruct (Hdone H) as [_ Hlast].
  split; [exact H|]. split; [|vm_compute; reflexivity].
  subst run. rewrite Hlast. vm_compute. reflexivity.
Defined.

(** ** Where generate_map.py can stop early *)

(** A turn of [geocode_all] raises only in the conversion of a centre that
    the request did return; export_geojson.py reports the same error. *)
Lemma lookup_raises (E : Py.env) coords idx addr tr tr' e :
  GenerateMap.lookup E coords (idx, addr) tr = (tr', Py.Raise e) →
  ∃ c, GenerateMap.geocode_address E idx addr = Py.Ok c
       ∧ Py.truthy c = true
       ∧ ExportGeojson.geocode E idx addr = Py.Raise e.
Proof.
  unfold GenerateMap.lookup, GenerateMap.geocode_address, ExportGeojson.geocode.
  unfold Py.bind, Py.emit, Py.ret, Py.lift.
  destruct (Py.net E idx addr) as [e'|data]; [done|].
  destruct (Py.get data "features") as [features|]; [|done]. simpl.
  destruct (Py.truthy (Py.or_else features (Py.VList []))); simpl; [|done].
  destruct (Py.subscript (Py.or_else features (Py.VList [])) 0) as [f0|];
    [|done]. simpl.
  destruct (Py.get f0 "center") as [c|]; [|done]. simpl.
  destruct (Py.truthy c) eqn:Hc; simpl; [|done].
  destruct (Py.subscript c 0) as [c0|]; simpl;
    [|intros [= _ <-]; by exists c].
  destruct (Py.float E c0) as [lon|]; simpl; [|intros [= _ <-]; by exists c].
  destruct (Py.subscript c 1) as [c1|]; simpl;
    [|intros [= _ <-]; by exists c].
  destruct (Py.float E c1) as [lat|]; simpl; [|intros [= _ <-]; by exists c].
  done.
Qed.

(** X14. [geocode_all] ends with an error only when some request, for one
    of the addresses, did return a centre that is true but cannot be read as
    two numbers; the error is the one export_geojson.py catches and reports
    for the same answer.  Failing requests and answers without candidate or
    centre never stop it. *)
Theorem X14_geocode_all_raises (E : Py.env) (addresses : list string)
    (e : Py.exn) :
  (GenerateMap.geocode_all E addresses []).2 = Py.Raise e →
  ∃ i a c, a ∈ addresses
           ∧ GenerateMap.geocode_address E i a = Py.Ok c
           ∧ Py.truthy c = true
           ∧ ExportGeojson.geocode E i a = Py.Raise e.
Proof.
  unfold GenerateMap.geocode_all, Py.bind.
  assert (Hloop : ∀ k coords tr tr',
    Py.for_each (GenerateMap.lookup E) coords (Py.enumerate k addresses) tr
    = (tr', Py.Raise e) →
    ∃ i a c, a ∈ addresses
             ∧ GenerateMap.geocode_address E i a = Py.Ok c
             ∧ Py.truthy c = true
             ∧ ExportGeojson.geocode E i a = Py.Raise e).
  { induction addresses as [|addr addresses IH]; intros k coords tr tr';
      [done|].
    rewrite MapFacts.enumerate_cons, PyFacts.for_each_cons.
    destruct (GenerateMap.lookup E coords (k, addr) tr) as [tr1 [coords1|e1]]
      eqn:Hturn.
    - intros (i & a & c & Ha & H)%IH. exists i, a, c. split; [by right|done].
    - intros [= <- <-].
      destruct (lookup_raises _ _ _ _ _ _ _ Hturn) as (c & H).
      exists k, addr, c. split; [by left|done]. }
  destruct (Py.for_each (GenerateMap.lookup E) [] (Py.enumerate 1 addresses) [])
    as [tr' [found|e']] eqn:Hrun; [done|].
  simpl. intros [= ->]. by eapply Hloop.
Qed.

Lemma X14_geocode_all_raises_witness :
  ∃ i a c, a ∈ [Examples.domplein_address]
           ∧ GenerateMap.geocode_address Examples.short_center i a = Py.Ok c
           ∧ Py.truthy c = true
           ∧ ExportGeojson.geocode Examples.short_center i a
             = Py.Raise Py.IndexError.
Proof.
  apply (X14_geocode_all_raises Examples.short_center
           [Examples.domplein_address] Py.IndexError).
  vm_compute. reflexivity.
Defined.

(** X15. On the single-map path a download that fails ends [main] with its
    error right after the attempt: the map is announced and requested once,
    and never reported as saved. *)
Theorem X15_single_download_fails (E : Py.env) (token : string)
    (coords : list (Qc * Qc)) (e : Py.exn) :
  coords ≠ [] →
  (Z.of_nat (String.length (Spec.url_of E token coords)) < 7800)%Z →
  Py.store E (Spec.url_of E token coords) "utrecht_markers.png" = Py.Raise e →
  GenerateMap.render E token coords []
  = ([ Py.Stdout (Py.Downloading "utrecht_markers.png");
       Py.Download (Spec.url_of E token coords) "utrecht_markers.png" ],
     Py.Raise e).
Proof.
  intros Hne Hshort Hfail. destruct coords as [|c coords]; [done|].
  unfold GenerateMap.render. fold (Spec.url_of E token (c :: coords)).
  apply Z.ltb_lt in Hshort. rewrite Hshort.
  unfold GenerateMap.download, Py.bind, Py.emit, Py.lift. by rewrite Hfail.
Qed.

Lemma X15_single_download_fails_witness :
  let E : Py.env :=
    {| Py.net := λ _ _, Examples.nothing;
       Py.float_of_int := λ _, Py.Raise Py.OverflowError;
       Py.float_of_str := λ _, Py.Raise Py.ValueError;
       Py.fmt6 := Examples.fixed6;
       Py.quote_plus := λ s, s;
       Py.store := λ _ _, Py.Raise (Py.URLError "timed out");
       Py.mkdirs := λ _, Py.Ok tt;
       Py.open_w := λ _, Py.Ok tt |} in
  (GenerateMap.render E "pk.test" [Examples.dom_tower] []).2
  = Py.Raise (Py.URLError "timed out").
Proof.
  intros E.
  assert (Hne : [Examples.dom_tower] ≠ []) by done.
  assert (Hshort : (Z.of_nat (String.length
                      (Spec.url_of E "pk.test" [Examples.dom_tower])) < 7800)%Z).
  { vm_compute. reflexivity. }
  rewrite (X15_single_download_fails E "pk.test" [Examples.dom_tower]
             (Py.URLError "timed out") Hne Hshort eq_refl).
  reflexivity.
Defined.
